(** * Phase-gate validation engine (validators/roi_validator.py)

    A shallow embedding of the [PrologValidator] class: the three
    threshold metrics, the adapter to the external SWI-Prolog process,
    the five phase gates, the technology audit and the report compiler,
    followed by the properties the design document states about them.

    Modelling conventions.
    - Python values stored in a context are the type [value].  A number
      is an [int], an integer of any size, or a [float], a binary64
      value of the Standard Library's [spec_float] (signed zeros,
      infinities and NaN included) in its canonical form; arithmetic
      rounds to nearest, ties to even, as IEEE 754 and Python do, and
      raises [OverflowError] where Python does.
    - Strings are byte strings holding the UTF-8 encoding of the Python
      text; [lower] and [upper] act on ASCII letters.
    - A context is a [gmap string value].  Gate code runs in a state and
      exception monad whose state is the caller's context, so that a
      write to the context would be visible in the final state.
    - The result dictionaries are records; an [option] field is [None]
      when the key is missing from the dictionary, except for the metric
      reading itself, whose key is always there and holds Python's [None]
      on a failed precondition.
    - What the operating system does when [swipl] is started is a
      parameter ([Runtime]), as is the text [str] gives for a float;
      output written with [print] is not modelled. *)

From Stdlib Require Import ZArith QArith Qround String Ascii List Bool Lia.
From Stdlib Require Import DecimalString SpecFloat.
From stdpp Require Import base option gmap strings.

Local Open Scope string_scope.
Local Open Scope list_scope.

(** ** Python values *)

(** Numbers: [int] and [float]. *)
Inductive number :=
| Int (z : Z)
| Float (f : spec_float).

#[warnings="-register-all"]
Inductive value :=
| VNone
| VBool (b : bool)
| VNum (n : number)
| VStr (s : string)
| VList (l : list value).

(** [f == 0.0]: both zeros, and nothing else. *)
Definition is_zero (f : spec_float) : bool :=
  match f with S754_zero _ => true | _ => false end.

(** [n != 0], the truth value of a number; NaN is true. *)
Definition nonzero (n : number) : bool :=
  match n with
  | Int z => negb (z =? 0)%Z
  | Float f => negb (is_zero f)
  end.

(** Truth value of an object in a condition ([if x], [x and y], [all]). *)
Definition truthy (v : value) : bool :=
  match v with
  | VNone => false
  | VBool b => b
  | VNum n => nonzero n
  | VStr s => negb (String.eqb s EmptyString)
  | VList l => match l with [] => false | _ => true end
  end.

(** [x and y] returns one of its operands, not a boolean. *)
Definition py_and (x y : value) : value := if truthy x then y else x.

(** [v == s] for a string literal [s]. *)
Definition eq_str (v : value) (s : string) : bool :=
  match v with VStr t => String.eqb t s | _ => false end.

(** [v in [s1, s2, ...]] for a list of string literals. *)
Definition in_strs (v : value) (l : list string) : bool := existsb (eq_str v) l.

(** ** Exceptions and outcomes *)

Inductive exn :=
| TypeError
| ZeroDivisionError
| AttributeError
| KeyError (k : string)
| TimeoutExpired
| CalledProcessError
| FileNotFoundError
| OSError
| OverflowError.

Inductive outcome (A : Type) :=
| Returns (a : A)
| Raises (e : exn).
Arguments Returns {A} a.
Arguments Raises {A} e.

#[global] Instance outcome_ret : MRet outcome := fun A a => Returns a.
#[global] Instance outcome_bind : MBind outcome := fun A B f m =>
  match m with
  | Returns a => f a
  | Raises e => Raises e
  end.

(** [try: body except Exception: handler]; every member of [exn] is a
    subclass of [Exception]. *)
Definition try_except {A} (body : outcome A) (handler : exn -> outcome A) : outcome A :=
  match body with
  | Returns a => Returns a
  | Raises e => handler e
  end.

Definition returned {A} (o : outcome A) : option A :=
  match o with Returns a => Some a | Raises _ => None end.

(** ** Numbers *)

(** Binary64: 53 bits of precision, infinities at exponent 1024. *)
Definition prec : Z := 53.
Definition emax : Z := 1024.

(** [float(z)] for an int: the nearest double, ties to even;
    [OverflowError] when that is beyond the largest double. *)
Definition float_of_int (z : Z) : outcome spec_float :=
  match binary_normalize prec emax z 0 false with
  | S754_infinity _ => Raises OverflowError
  | f => Returns f
  end.

(** The double an operand of a float operation stands for. *)
Definition as_float (n : number) : outcome spec_float :=
  match n with
  | Int z => float_of_int z
  | Float f => Returns f
  end.

(** The float literals of the source. *)
Definition float_1_5 : spec_float := Eval vm_compute in binary_normalize prec emax 3 (-1) false.
Definition float_3_0 : spec_float := Eval vm_compute in binary_normalize prec emax 3 0 false.
Definition float_20_0 : spec_float := Eval vm_compute in binary_normalize prec emax 20 0 false.

(** [float(100)], the operand [100] of the margin as the product sees it. *)
Definition float_100 : spec_float := Eval vm_compute in binary_normalize prec emax 100 0 false.

(** [n <= 0] against the int literal; false for NaN. *)
Definition num_le_zero (n : number) : bool :=
  match n with
  | Int z => (z <=? 0)%Z
  | Float f => SFleb f (S754_zero false)
  end.

(** [x >= y] on floats; false when one of them is NaN. *)
Definition float_ge (x y : spec_float) : bool := SFleb y x.

(** [x - y]: exact on ints, rounded on floats; an int meeting a float
    is converted first. *)
Definition num_sub (x y : number) : outcome number :=
  match x, y with
  | Int a, Int b => Returns (Int (a - b))
  | _, _ =>
      a ← as_float x;
      b ← as_float y;
      Returns (Float (SFsub prec emax a b))
  end.

(** [a / b] on ints: the quotient rounded once to the nearest double
    (ties to even), [-0.0] for [0 / b] with [b < 0]. *)
Definition int_truediv (a b : Z) : outcome spec_float :=
  match a, b with
  | _, Z0 => Raises ZeroDivisionError
  | Z0, _ => Returns (S754_zero (b <? 0)%Z)
  | _, _ =>
      match SFdiv prec emax (S754_finite (a <? 0)%Z (Z.to_pos (Z.abs a)) 0)
                            (S754_finite (b <? 0)%Z (Z.to_pos (Z.abs b)) 0) with
      | S754_infinity _ => Raises OverflowError
      | f => Returns f
      end
  end.

(** [x / y], true division: always a float. *)
Definition num_truediv (x y : number) : outcome spec_float :=
  match x, y with
  | Int a, Int b => int_truediv a b
  | _, _ =>
      a ← as_float x;
      b ← as_float y;
      if is_zero b then Raises ZeroDivisionError
      else Returns (SFdiv prec emax a b)
  end.

(** The number a value stands for in arithmetic; [bool] is a subclass
    of [int]. *)
Definition as_num (v : value) : option number :=
  match v with
  | VBool b => Some (Int (if b then 1 else 0))
  | VNum n => Some n
  | _ => None
  end.

(** [v <= 0]. *)
Definition le_zero (v : value) : outcome bool :=
  match as_num v with
  | Some n => Returns (num_le_zero n)
  | None => Raises TypeError
  end.

(** [a - b]. *)
Definition py_sub (a b : value) : outcome number :=
  match as_num a, as_num b with
  | Some x, Some y => num_sub x y
  | _, _ => Raises TypeError
  end.

(** [a / b], true division. *)
Definition py_truediv (a b : value) : outcome spec_float :=
  match as_num a, as_num b with
  | Some x, Some y => num_truediv x y
  | _, _ => Raises TypeError
  end.

(** ** Strings *)

Fixpoint is_prefix (p s : string) : bool :=
  match p, s with
  | EmptyString, _ => true
  | String a p', String b s' => Ascii.eqb a b && is_prefix p' s'
  | String _ _, EmptyString => false
  end.

(** [needle in hay] on strings. *)
Fixpoint contains (needle hay : string) : bool :=
  is_prefix needle hay ||
  match hay with
  | EmptyString => false
  | String _ t => contains needle t
  end.

Definition lower_ascii (c : ascii) : ascii :=
  let n := N_of_ascii c in
  if ((65 <=? n) && (n <=? 90))%N then ascii_of_N (n + 32) else c.

Definition upper_ascii (c : ascii) : ascii :=
  let n := N_of_ascii c in
  if ((97 <=? n) && (n <=? 122))%N then ascii_of_N (n - 32) else c.

Fixpoint map_string (f : ascii -> ascii) (s : string) : string :=
  match s with
  | EmptyString => EmptyString
  | String c t => String (f c) (map_string f t)
  end.

Definition lower : string -> string := map_string lower_ascii.
Definition upper : string -> string := map_string upper_ascii.

(** [v.upper()]: only strings have the method. *)
Definition py_upper (v : value) : outcome string :=
  match v with
  | VStr s => Returns (upper s)
  | _ => Raises AttributeError
  end.

(** *** The format specification [:.2f] *)

Definition round_half_even (x : Q) : Z :=
  let f := Qfloor x in
  match (x - inject_Z f ?= 1 # 2)%Q with
  | Lt => f
  | Gt => (f + 1)%Z
  | Eq => if Z.even f then f else (f + 1)%Z
  end.

Definition digits (n : Z) : string := NilZero.string_of_uint (N.to_uint (Z.to_N n)).

(** The digits of a rational that is not negative, with two decimals. *)
Definition fmt2f_abs (x : Q) : string :=
  let c := round_half_even (x * 100) in
  digits (c / 100) +:+ "." +:+ digits (c mod 100 / 10) +:+ digits (c mod 10).

(** The value of a finite double, sign apart. *)
Definition magnitude (m : positive) (e : Z) : Q :=
  match e with
  | Zneg d => Zpos m # Pos.iter xO 1%positive d
  | _ => inject_Z (Zpos m * 2 ^ e)
  end.

(** [f"{x:.2f}"] on a float: the exact value of the double rounded to
    two decimals, ties to even. *)
Definition fmt2f (x : spec_float) : string :=
  match x with
  | S754_nan => "nan"
  | S754_infinity s => if s then "-inf" else "inf"
  | S754_zero s => if s then "-0.00" else "0.00"
  | S754_finite s m e => (if s then "-" else EmptyString) +:+ fmt2f_abs (magnitude m e)
  end.

(** [f"{v:.2f}"]: [None] does not support the format. *)
Definition format_2f (v : option spec_float) : outcome string :=
  match v with
  | Some x => Returns (fmt2f x)
  | None => Raises TypeError
  end.

(** ** The runtime the validator lives in *)

(** What happens to a started process. *)
Inductive process :=
| Exited (elapsed : Q) (returncode : Z)
| Hung
| Failed (e : exn).

(** The parts of the interpreter and of the operating system the model
    leaves open: the text [str] gives for a float and for a list, the
    outcome of [swipl --version], and what
    [swipl -g <goal> -t halt <file>] does. *)
Record Runtime := {
  repr_float : spec_float -> string;
  repr_list : list value -> string;
  swipl_version : outcome Z;
  swipl_goal : string -> string -> process
}.

(** [str] of an int: its decimal digits. *)
Definition str_int (z : Z) : string :=
  (if (z <? 0)%Z then "-" else EmptyString) +:+ digits (Z.abs z).

Definition str_num (rt : Runtime) (n : number) : string :=
  match n with
  | Int z => str_int z
  | Float f => repr_float rt f
  end.

(** [f"{v}"]. *)
Definition py_str (rt : Runtime) (v : value) : string :=
  match v with
  | VNone => "None"
  | VBool true => "True"
  | VBool false => "False"
  | VNum n => str_num rt n
  | VStr s => s
  | VList l => repr_list rt l
  end.

Record CompletedProcess := { returncode : Z }.

(** [subprocess.run(..., timeout=t)] on a process. *)
Definition subprocess_run (p : process) (timeout : Q) : outcome CompletedProcess :=
  match p with
  | Exited elapsed rc =>
      if Qle_bool elapsed timeout then Returns {| returncode := rc |}
      else Raises TimeoutExpired
  | Hung => Raises TimeoutExpired
  | Failed e => Raises e
  end.

Record PrologValidator := {
  prolog_file : string;
  prolog_available : bool
}.

Definition default_prolog_file : string := "validation/logic/validation_core.pl".

(** [subprocess.run(["swipl", "--version"], check=True)] inside
    [try ... except (CalledProcessError, FileNotFoundError)]. *)
Definition _check_prolog_available (rt : Runtime) : outcome bool :=
  try_except
    (rc ← swipl_version rt;
     if (rc =? 0)%Z then Returns true else Raises CalledProcessError)
    (fun e =>
       match e with
       | CalledProcessError | FileNotFoundError => Returns false
       | _ => Raises e
       end).

(** [prolog_file or <default>]: the argument when it is truthy, that is
    neither [None] nor the empty path. *)
Definition __init__ (rt : Runtime) (file : option string) : outcome PrologValidator :=
  available ← _check_prolog_available rt;
  mret {| prolog_file := match file with
                         | Some (String c path) => String c path
                         | Some EmptyString | None => default_prolog_file
                         end;
          prolog_available := available |}.

(** The dictionary [{"success": True}]. *)
Record QueryResult := { success : bool }.

Definition _query_prolog (rt : Runtime) (self : PrologValidator) (query : string)
  : outcome (option QueryResult) :=
  if negb (prolog_available self) then Returns None
  else
    try_except
      (result ← subprocess_run (swipl_goal rt query (prolog_file self)) 5;
       if (returncode result =? 0)%Z then Returns (Some {| success := true |})
       else Returns None)
      (fun _ => Returns None).

(** ** Threshold metrics *)

Record MetricResult := {
  m_valid : bool;
  m_value : option spec_float;
  m_threshold : option spec_float;
  m_reason : option string;
  m_validated_by : option string
}.

Definition validate_roi (rt : Runtime) (self : PrologValidator) (revenue costs : value)
  : outcome MetricResult :=
  nonpos ← le_zero costs;
  if (nonpos : bool) then
    Returns {| m_valid := false; m_value := None; m_threshold := None;
               m_reason := Some "Costs must be positive"; m_validated_by := None |}
  else
    diff ← py_sub revenue costs;
    roi ← py_truediv (VNum diff) costs;
    let fallback :=
      let valid := float_ge roi float_1_5 in
      Returns {| m_valid := valid; m_value := Some roi; m_threshold := Some float_1_5;
                 m_reason := Some (if negb valid then "ROI below 1.5x threshold"
                                   else "ROI acceptable");
                 m_validated_by := Some "python" |} in
    if prolog_available self then
      let query := "roi_positive(" +:+ py_str rt revenue +:+ ", "
                     +:+ py_str rt costs +:+ ", ROI)." in
      result ← _query_prolog rt self query;
      match result with
      | Some _ =>
          Returns {| m_valid := true; m_value := Some roi; m_threshold := Some float_1_5;
                     m_reason := None; m_validated_by := Some "prolog" |}
      | None => fallback
      end
    else fallback.

Definition validate_ltv_cac (rt : Runtime) (self : PrologValidator) (ltv cac : value)
  : outcome MetricResult :=
  nonpos ← le_zero cac;
  if (nonpos : bool) then
    Returns {| m_valid := false; m_value := None; m_threshold := None;
               m_reason := Some "CAC must be positive"; m_validated_by := None |}
  else
    ratio ← py_truediv ltv cac;
    let fallback :=
      let valid := float_ge ratio float_3_0 in
      Returns {| m_valid := valid; m_value := Some ratio; m_threshold := Some float_3_0;
                 m_reason := Some (if negb valid then "LTV:CAC below 3:1 threshold"
                                   else "Unit economics strong");
                 m_validated_by := Some "python" |} in
    if prolog_available self then
      let query := "ltv_cac_acceptable(" +:+ py_str rt ltv +:+ ", "
                     +:+ py_str rt cac +:+ ", Ratio)." in
      result ← _query_prolog rt self query;
      match result with
      | Some _ =>
          Returns {| m_valid := true; m_value := Some ratio; m_threshold := Some float_3_0;
                     m_reason := None; m_validated_by := Some "prolog" |}
      | None => fallback
      end
    else fallback.

Definition validate_margin (rt : Runtime) (self : PrologValidator) (revenue costs : value)
  : outcome MetricResult :=
  nonpos ← le_zero revenue;
  if (nonpos : bool) then
    Returns {| m_valid := false; m_value := None; m_threshold := None;
               m_reason := Some "Revenue must be positive"; m_validated_by := None |}
  else
    diff ← py_sub revenue costs;
    frac ← py_truediv (VNum diff) revenue;
    let margin := SFmul prec emax frac float_100 in
    let fallback :=
      let valid := float_ge margin float_20_0 in
      Returns {| m_valid := valid; m_value := Some margin; m_threshold := Some float_20_0;
                 m_reason := Some (if negb valid then "Margin below 20% threshold"
                                   else "Margin acceptable");
                 m_validated_by := Some "python" |} in
    if prolog_available self then
      let query := "margin_acceptable(" +:+ py_str rt revenue +:+ ", "
                     +:+ py_str rt costs +:+ ", Margin)." in
      result ← _query_prolog rt self query;
      match result with
      | Some _ =>
          Returns {| m_valid := true; m_value := Some margin; m_threshold := Some float_20_0;
                     m_reason := None; m_validated_by := Some "prolog" |}
      | None => fallback
      end
    else fallback.

(** ** Contexts and the code that reads them *)

Abbreviation context := (gmap string value).

(** Computations over the caller's context: the context is threaded
    through, and is still there when an exception is raised. *)
Definition M (A : Type) : Type := context -> outcome A * context.

#[global] Instance M_ret : MRet M := fun A a c => (Returns a, c).
#[global] Instance M_bind : MBind M := fun A B f m c =>
  match m c with
  | (Returns a, c') => f a c'
  | (Raises e, c') => (Raises e, c')
  end.

Definition lift {A} (o : outcome A) : M A := fun c => (o, c).

(** [context.get(k)]. *)
Definition dict_get (k : string) : M value :=
  fun c => (Returns (default VNone (c !! k)), c).

(** [context.get(k, d)]. *)
Definition dict_get_default (k : string) (d : value) : M value :=
  fun c => (Returns (default d (c !! k)), c).

(** [context[k]]. *)
Definition dict_index (k : string) : M value :=
  fun c => (match c !! k with Some v => Returns v | None => Raises (KeyError k) end, c).

(** [k in context]. *)
Definition dict_contains (k : string) : M bool :=
  fun c => (Returns (bool_decide (is_Some (c !! k))), c).

(** The result of a computation started in context [c]. *)
Definition result_of {A} (m : M A) (c : context) : outcome A := (m c).1.

(** The context a computation leaves behind. *)
Definition context_after {A} (m : M A) (c : context) : context := (m c).2.

(** ** Phase gates *)

Record GateResult := {
  g_valid : value;
  g_gate : option string;
  g_checks : option (list string);
  g_decision : option string;
  g_reason : option string
}.

Definition _validate_gate_p1 : M GateResult :=
  let checks := [] in
  rc ← dict_get "research_complete";
  let checks := checks ++ [if truthy rc then "✓ Research complete"
                           else "✗ Research incomplete"] in
  tier ← dict_get_default "tier" (VStr "t4");
  tier_upper ← lift (py_upper tier);
  let checks := checks ++ [if in_strs tier ["t1"; "t2"]
                           then "✓ Tier " +:+ tier_upper +:+ " (proceed)"
                           else "✗ Tier " +:+ tier_upper +:+ " (no-go)"] in
  rc' ← dict_get "research_complete";
  let valid := py_and rc' (VBool (in_strs tier ["t1"; "t2"])) in
  mret {| g_valid := valid;
          g_gate := Some "P0 → P1";
          g_checks := Some checks;
          g_decision := Some (if truthy valid then "PROCEED" else "HALT");
          g_reason := Some (if truthy valid then "Research validated, tier acceptable"
                            else "Research or tier insufficient") |}.

Definition _validate_gate_p2 : M GateResult :=
  let checks := [] in
  bms ← dict_get "business_model_sound";
  let checks := checks ++ [if truthy bms then "✓ Business model sound"
                           else "✗ Business model weak"] in
  mv ← dict_get "market_validated";
  let checks := checks ++ [if truthy mv then "✓ Market validated"
                           else "✗ Market not validated"] in
  bms' ← dict_get "business_model_sound";
  valid ← (if truthy bms' then dict_get "market_validated" else mret bms');
  mret {| g_valid := valid;
          g_gate := Some "P1 → P2";
          g_checks := Some checks;
          g_decision := Some (if truthy valid then "PROCEED" else "HALT");
          g_reason := None |}.

(** [all("✓" in check for check in checks)]. *)
Definition all_marked (checks : list string) : bool := forallb (contains "✓") checks.

Definition _validate_gate_p3 (rt : Runtime) (self : PrologValidator) : M GateResult :=
  let checks := [] in
  bms ← dict_get "business_model_sound";
  let checks := checks ++ [if truthy bms then "✓ AXIS: Business model sound"
                           else "✗ AXIS: Business model weak"] in
  uc ← dict_get "unvalidated_claims";
  let checks := checks ++ [if negb (truthy uc) then "✓ BILL: No unvalidated claims"
                           else "✗ BILL: Unvalidated claims exist"] in
  revenue ← dict_get "revenue";
  cond ← (if truthy revenue then dict_get "costs" else mret revenue);
  checks ←
    (if truthy cond then
       revenue ← dict_index "revenue";
       costs ← dict_index "costs";
       roi_result ← lift (validate_roi rt self revenue costs);
       if m_valid roi_result then
         shown ← lift (format_2f (m_value roi_result));
         mret (checks ++ ["✓ MIDAS: ROI " +:+ shown +:+ "x"])
       else
         shown ← lift (format_2f (m_value roi_result));
         mret (checks ++ ["✗ MIDAS: ROI " +:+ shown +:+ "x (need 1.5x+)"])
     else mret checks);
  tr ← dict_get "timeline_realistic";
  let checks := checks ++ [if truthy tr then "✓ GANTT: Timeline realistic"
                           else "✗ GANTT: Timeline unrealistic"] in
  rm ← dict_get "risks_mitigated";
  let checks := checks ++ [if truthy rm then "✓ SENECA: Risks mitigated"
                           else "✗ SENECA: Risks not addressed"] in
  ts ← dict_get "tech_stack_validated";
  let checks := checks ++ [if truthy ts then "✓ TURING: Tech stack validated"
                           else "✗ TURING: Tech stack not validated"] in
  let all_checks_passed := all_marked checks in
  mret {| g_valid := VBool all_checks_passed;
          g_gate := Some "P2 → P3 (Week 6 - Sacred $100 decision)";
          g_checks := Some checks;
          g_decision := Some (if all_checks_passed then "PROCEED (return $100)"
                              else "HALT (keep $100)");
          g_reason := Some (if all_checks_passed then "All validation passed"
                            else "Critical validation failed") |}.

(** [all(context.get(key) for key in keys)]. *)
Fixpoint all_get (keys : list string) : M bool :=
  match keys with
  | [] => mret true
  | key :: rest => v ← dict_get key; if truthy v then all_get rest else mret false
  end.

Definition _validate_gate_p4 : M GateResult :=
  let checks := [] in
  cc ← dict_get "code_complete";
  let checks := checks ++ [if truthy cc then "✓ Code complete" else "✗ Code incomplete"] in
  tp ← dict_get "tests_passing";
  let checks := checks ++ [if truthy tp then "✓ All tests passing" else "✗ Tests failing"] in
  dr ← dict_get "deployment_ready";
  let checks := checks ++ [if truthy dr then "✓ Deployment ready"
                           else "✗ Deployment not ready"] in
  valid ← all_get ["code_complete"; "tests_passing"; "deployment_ready"];
  mret {| g_valid := VBool valid;
          g_gate := Some "P3 → P4";
          g_checks := Some checks;
          g_decision := Some (if valid then "PROCEED" else "HALT");
          g_reason := None |}.

Definition _validate_gate_p5 (rt : Runtime) (self : PrologValidator) : M GateResult :=
  let checks := [] in
  vc ← dict_get "validation_complete";
  let checks := checks ++ [if truthy vc then "✓ Validation complete"
                           else "✗ Validation incomplete"] in
  revenue ← dict_get "actual_revenue";
  cond ← (if truthy revenue then dict_get "actual_costs" else mret revenue);
  checks ←
    (if truthy cond then
       revenue ← dict_index "actual_revenue";
       costs ← dict_index "actual_costs";
       roi_result ← lift (validate_roi rt self revenue costs);
       if m_valid roi_result then
         shown ← lift (format_2f (m_value roi_result));
         mret (checks ++ ["✓ Actual ROI: " +:+ shown +:+ "x"])
       else
         shown ← lift (format_2f (m_value roi_result));
         mret (checks ++ ["✗ Actual ROI: " +:+ shown +:+ "x (need 1.5x+)"])
     else mret checks);
  sp ← dict_get "sustainability_proven";
  let checks := checks ++ [if truthy sp then "✓ Sustainability proven"
                           else "✗ Sustainability not proven"] in
  let valid := all_marked checks in
  mret {| g_valid := VBool valid;
          g_gate := Some "P4 → P5 (Week 10 - Sustainability check)";
          g_checks := Some checks;
          g_decision := Some (if valid then "PROCEED (iterate)" else "HALT (pivot or kill)");
          g_reason := Some (if valid then "Sustainable" else "Not sustainable") |}.

Definition gate_validators (rt : Runtime) (self : PrologValidator)
  : list (string * M GateResult) :=
  [ ("p1", _validate_gate_p1);
    ("p2", _validate_gate_p2);
    ("p3", _validate_gate_p3 rt self);
    ("p4", _validate_gate_p4);
    ("p5", _validate_gate_p5 rt self) ].

(** Lists cannot be dictionary keys. *)
Definition hashable (v : value) : bool :=
  match v with VList _ => false | _ => true end.

(** [d.get(key)] on a dictionary with string keys. *)
Definition get_validator {A} (key : value) (d : list (string * A)) : option A :=
  snd <$> List.find (fun kv => eq_str key (fst kv)) d.

Definition validate_phase_gate (rt : Runtime) (self : PrologValidator) (phase : value)
  : M GateResult :=
  if negb (hashable phase) then lift (Raises TypeError)
  else
    match get_validator phase (gate_validators rt self) with
    | Some validator => validator
    | None =>
        mret {| g_valid := VBool false;
                g_gate := None;
                g_checks := None;
                g_decision := None;
                g_reason := Some ("Unknown phase: " +:+ py_str rt phase) |}
    end.

(** ** Technology audit *)

(** The dictionary [_check_simpler_alternative] returns. *)
Record SimplerCheck := {
  s_valid : bool;
  s_alternative : option string
}.

Definition simple_choices : list string :=
  ["fastapi"; "flask"; "go"; "htmx"; "alpine"; "tailwind"; "postgres"; "sqlite"].

(** A dictionary literal, in insertion order. *)
Definition alternatives : list (string * string) :=
  [ ("react", "Consider HTMX + Alpine.js for simpler SSR");
    ("angular", "Consider HTMX or plain JS");
    ("kubernetes", "Consider Fly.io or Heroku unless 10K+ users");
    ("microservices", "Start with monolith, split later");
    ("mongodb", "Use PostgreSQL unless specific need validated") ].

Definition _check_simpler_alternative (tech : string) : SimplerCheck :=
  let tech_lower := lower tech in
  if existsb (fun simple => contains simple tech_lower) simple_choices then
    {| s_valid := true; s_alternative := None |}
  else
    match List.find (fun entry => contains (fst entry) tech_lower) alternatives with
    | Some (_, alt) => {| s_valid := false; s_alternative := Some alt |}
    | None => {| s_valid := true; s_alternative := None |}
    end.

Definition ai_unfriendly : list string := ["react"; "angular"; "vue"; "django"].

Definition _check_ai_friendly (tech : string) : bool :=
  let tech_lower := lower tech in
  negb (existsb (fun unfriendly => contains unfriendly tech_lower) ai_unfriendly).

Definition complex_deploy : list string := ["kubernetes"; "k8s"; "docker-compose"].

Definition _check_deploy_simple (tech : string) : bool :=
  let tech_lower := lower tech in
  negb (existsb (fun complex => contains complex tech_lower) complex_deploy).

Record TechResult := {
  tech : string;
  simpler_checked : bool;
  ai_friendly : bool;
  deploy_simple : bool;
  recommendation : string;
  warning : option string
}.

Record TechAudit := {
  t_valid : bool;
  tech_choices : list TechResult;
  overall : string
}.

(** The body of the loop of [validate_tech_stack] for one name. *)
Definition audit_one (name : string) : TechResult :=
  let simpler := _check_simpler_alternative name in
  let ai := _check_ai_friendly name in
  let deploy := _check_deploy_simple name in
  {| tech := name;
     simpler_checked := s_valid simpler;
     ai_friendly := ai;
     deploy_simple := deploy;
     recommendation := if s_valid simpler && ai && deploy then "✓ Approved"
                       else "⚠ Reconsider";
     warning := if negb (s_valid simpler) then s_alternative simpler else None |}.

(** Only strings have [lower]. *)
Definition audit_value (v : value) : outcome TechResult :=
  match v with
  | VStr name => Returns (audit_one name)
  | _ => Raises AttributeError
  end.

Fixpoint audit_all (items : list value) : outcome (list TechResult) :=
  match items with
  | [] => Returns []
  | v :: rest =>
      r ← audit_value v;
      rs ← audit_all rest;
      Returns (r :: rs)
  end.

(** UTF-8 continuation bytes are [10xxxxxx]. *)
Definition continuation (c : ascii) : bool :=
  let n := N_of_ascii c in ((128 <=? n) && (n <? 192))%N.

(** The characters of a string, each as a string of its own. *)
Fixpoint characters (s : string) : list string :=
  match s with
  | EmptyString => []
  | String c t =>
      match characters t with
      | [] => [String c EmptyString]
      | first :: others =>
          match t with
          | String c' _ =>
              if continuation c' then String c first :: others
              else String c EmptyString :: first :: others
          | EmptyString => [String c EmptyString]
          end
      end
  end.

(** [for x in v]. *)
Definition py_iter (v : value) : outcome (list value) :=
  match v with
  | VList l => Returns l
  | VStr s => Returns (VStr <$> characters s)
  | _ => Raises TypeError
  end.

Definition approved (r : TechResult) : bool := String.eqb (recommendation r) "✓ Approved".

Definition validate_tech_stack (tech_choices : value) : outcome TechAudit :=
  items ← py_iter tech_choices;
  results ← audit_all items;
  let all_valid := forallb approved results in
  Returns {| t_valid := all_valid;
             tech_choices := results;
             overall := if all_valid then "Stack approved" else "Stack needs review" |}.

(** ** Report *)

Definition newline : string := String (ascii_of_N 10) EmptyString.

(** [sep.join(parts)]. *)
Fixpoint join (sep : string) (parts : list string) : string :=
  match parts with
  | [] => EmptyString
  | [x] => x
  | x :: rest => x +:+ sep +:+ join sep rest
  end.

(** [d[key]] on a result field. *)
Definition index {A} (key : string) (field : option A) : outcome A :=
  match field with
  | Some x => Returns x
  | None => Raises (KeyError key)
  end.

Definition tech_lines (t : TechResult) : list string :=
  ("- " +:+ tech t +:+ ": " +:+ recommendation t)
    :: match warning t with
       | Some w => ["  ⚠ " +:+ w]
       | None => []
       end.

Definition generate_validation_report (rt : Runtime) (self : PrologValidator) : M string :=
  let report := ["# Validation Report" +:+ newline] in
  has_revenue ← dict_contains "revenue";
  has_costs ← (if (has_revenue : bool) then dict_contains "costs" else mret false);
  report ←
    (if (has_costs : bool) then
       revenue ← dict_index "revenue";
       costs ← dict_index "costs";
       roi_result ← lift (validate_roi rt self revenue costs);
       shown ← lift (format_2f (m_value roi_result));
       threshold ← lift (index "threshold" (m_threshold roi_result));
       mret (report ++
               [ "## ROI Validation";
                 "- ROI: " +:+ shown +:+ "x (threshold: " +:+ repr_float rt threshold +:+ "x)";
                 "- Status: " +:+ (if m_valid roi_result then "✓ PASS" else "✗ FAIL");
                 EmptyString ])
     else mret report);
  has_ltv ← dict_contains "ltv";
  has_cac ← (if (has_ltv : bool) then dict_contains "cac" else mret false);
  report ←
    (if (has_cac : bool) then
       ltv ← dict_index "ltv";
       cac ← dict_index "cac";
       ltv_cac_result ← lift (validate_ltv_cac rt self ltv cac);
       shown ← lift (format_2f (m_value ltv_cac_result));
       threshold ← lift (index "threshold" (m_threshold ltv_cac_result));
       mret (report ++
               [ "## Unit Economics Validation";
                 "- LTV:CAC: " +:+ shown +:+ " (threshold: " +:+ repr_float rt threshold +:+ ")";
                 "- Status: " +:+ (if m_valid ltv_cac_result then "✓ PASS" else "✗ FAIL");
                 EmptyString ])
     else mret report);
  has_phase ← dict_contains "current_phase";
  report ←
    (if (has_phase : bool) then
       phase ← dict_index "current_phase";
       gate_result ← validate_phase_gate rt self phase;
       gate ← lift (index "gate" (g_gate gate_result));
       checks ← lift (index "checks" (g_checks gate_result));
       decision ← lift (index "decision" (g_decision gate_result));
       mret (report ++ ["## Phase Gate: " +:+ gate]
                    ++ map (fun check => "- " +:+ check) checks
                    ++ ["- Decision: **" +:+ decision +:+ "**"; EmptyString])
     else mret report);
  has_stack ← dict_contains "tech_stack";
  report ←
    (if (has_stack : bool) then
       stack ← dict_index "tech_stack";
       tech_result ← lift (validate_tech_stack stack);
       mret (report ++ ["## Tech Stack Validation"]
                    ++ concat (map tech_lines (tech_choices tech_result))
                    ++ [EmptyString])
     else mret report);
  mret (join newline report).

(** ** Definitions used in the statements *)

(** The engine was started, ended in time and exited with status 0. *)
Definition confirms (rt : Runtime) (self : PrologValidator) (query : string) : bool :=
  prolog_available self &&
  match swipl_goal rt query (prolog_file self) with
  | Exited elapsed rc => Qle_bool elapsed 5 && (rc =? 0)%Z
  | Hung | Failed _ => false
  end.

Definition external_result (reading threshold : spec_float) : MetricResult :=
  {| m_valid := true; m_value := Some reading; m_threshold := Some threshold;
     m_reason := None; m_validated_by := Some "prolog" |}.

Definition fallback_result (reading threshold : spec_float) (bad ok : string) : MetricResult :=
  {| m_valid := float_ge reading threshold; m_value := Some reading;
     m_threshold := Some threshold;
     m_reason := Some (if negb (float_ge reading threshold) then bad else ok);
     m_validated_by := Some "python" |}.

Definition roi_query (rt : Runtime) (revenue costs : value) : string :=
  "roi_positive(" +:+ py_str rt revenue +:+ ", " +:+ py_str rt costs +:+ ", ROI).".

Definition ltv_cac_query (rt : Runtime) (ltv cac : value) : string :=
  "ltv_cac_acceptable(" +:+ py_str rt ltv +:+ ", " +:+ py_str rt cac +:+ ", Ratio).".

Definition margin_query (rt : Runtime) (revenue costs : value) : string :=
  "margin_acceptable(" +:+ py_str rt revenue +:+ ", " +:+ py_str rt costs +:+ ", Margin).".


(** The three metrics of the design document, by name, with the reading
    each one reports, its threshold and the operand its guard tests. *)
Inductive metric := Roi | LtvCac | Margin.

Definition evaluate (m : metric)
  : Runtime -> PrologValidator -> value -> value -> outcome MetricResult :=
  match m with
  | Roi => validate_roi
  | LtvCac => validate_ltv_cac
  | Margin => validate_margin
  end.

(** The reading as Python computes it: [(revenue - costs) / costs],
    [ltv / cac], [((revenue - costs) / revenue) * 100]. *)
Definition reading (m : metric) (x y : value) : outcome spec_float :=
  match m with
  | Roi => diff ← py_sub x y; py_truediv (VNum diff) y
  | LtvCac => py_truediv x y
  | Margin =>
      diff ← py_sub x y;
      frac ← py_truediv (VNum diff) x;
      Returns (SFmul prec emax frac float_100)
  end.

Definition threshold (m : metric) : spec_float :=
  match m with Roi => float_1_5 | LtvCac => float_3_0 | Margin => float_20_0 end.

(** The operand that has to be positive: costs, CAC, revenue. *)
Definition denominator {A} (m : metric) (x y : A) : A :=
  match m with Roi | LtvCac => y | Margin => x end.

Definition query_of (m : metric) : Runtime -> value -> value -> string :=
  match m with
  | Roi => roi_query
  | LtvCac => ltv_cac_query
  | Margin => margin_query
  end.

Definition rejected (m : metric) : MetricResult :=
  {| m_valid := false; m_value := None; m_threshold := None;
     m_reason := Some match m with
                      | Roi => "Costs must be positive"
                      | LtvCac => "CAC must be positive"
                      | Margin => "Revenue must be positive"
                      end;
     m_validated_by := None |}.

(** The verdict of the fallback comparison in the words of the design
    document: valid iff the reading reaches the threshold. *)
Definition fallback_verdict (m : metric) (q : spec_float) : bool :=
  float_ge q (threshold m).

(** The record of the fallback path for a reading [q]. *)
Definition fallback_of (m : metric) (q : spec_float) : MetricResult :=
  match m with
  | Roi => fallback_result q (threshold Roi)
             "ROI below 1.5x threshold" "ROI acceptable"
  | LtvCac => fallback_result q (threshold LtvCac)
                "LTV:CAC below 3:1 threshold" "Unit economics strong"
  | Margin => fallback_result q (threshold Margin)
                "Margin below 20% threshold" "Margin acceptable"
  end.

(** The operand of a metric that is not its denominator. *)
Definition numerator {A} (m : metric) (x y : A) : A :=
  match m with Roi | LtvCac => x | Margin => y end.

(** A float value. *)
Definition is_float (v : value) : bool :=
  match v with VNum (Float _) => true | _ => false end.

(** The exceptions of the arithmetic of a metric: an operand that is
    not a number, or an int beyond the range of a double. *)
Definition arithmetic_error (e : exn) (a b : value) : Prop :=
  e = TypeError \/ (e = OverflowError /\ is_float a && is_float b = false).

(** The double 2.25, the ratio of an LTV of 900 to a CAC of 400. *)
Definition float_2_25 : spec_float := Eval vm_compute in binary_normalize prec emax 9 (-2) false.

(** The double 2.0, the ROI of a revenue of 300000 on costs of 100000. *)
Definition float_2_0 : spec_float := Eval vm_compute in binary_normalize prec emax 2 0 false.

(** *** Sample runtimes and validators *)

(** The sample runtimes write a float with two decimals where Python
    writes its shortest representation. *)

(** No [swipl] binary on the machine. *)
Definition no_engine : Runtime :=
  {| repr_float := fmt2f;
     repr_list := fun _ => "[...]";
     swipl_version := Raises FileNotFoundError;
     swipl_goal := fun _ _ => Failed FileNotFoundError |}.

(** An engine with a rule file in which every goal succeeds at once. *)
Definition lenient_engine : Runtime :=
  {| repr_float := fmt2f;
     repr_list := fun _ => "[...]";
     swipl_version := Returns 0%Z;
     swipl_goal := fun _ _ => Exited 1 0 |}.


Definition offline : PrologValidator :=
  {| prolog_file := default_prolog_file; prolog_available := false |}.

Definition online : PrologValidator :=
  {| prolog_file := default_prolog_file; prolog_available := true |}.

(** *** Reading check lines and contexts *)

(** The outcome a check line records: it opens with the pass marker. *)
Definition check_passed (check : string) : bool := is_prefix "✓" check.

(** The check line is the one about the return on investment. *)
Definition is_roi_entry (check : string) : bool := contains "ROI" check.

(** The truth value of [context.get(key)]. *)
Definition fact (ctx : context) (key : string) : bool :=
  truthy (default VNone (ctx !! key)).

Definition seven_bit (c : ascii) : bool :=
  match c with Ascii _ _ _ _ _ _ _ b7 => negb b7 end.

Fixpoint ascii_only (s : string) : bool :=
  match s with
  | EmptyString => true
  | String c t => seven_bit c && ascii_only t
  end.

(** What the ROI block of the P2→P3 and P4→P5 gates adds to the checks,
    as a function of the context, the two keys [rk] and [ck] and the
    openings of the pass and fail lines. *)
Definition roi_entry (rt : Runtime) (self : PrologValidator) (rk ck : string)
    (pass fail : string) (ctx : context) : outcome (option string) :=
  if fact ctx rk && fact ctx ck then
    res ← validate_roi rt self (default VNone (ctx !! rk)) (default VNone (ctx !! ck));
    shown ← format_2f (m_value res);
    Returns (Some (if m_valid res then pass +:+ shown +:+ "x"
                   else fail +:+ shown +:+ "x (need 1.5x+)"))
  else Returns None.

(** A computation that leaves the context as it found it. *)
Definition readonly {A} (m : M A) : Prop := forall c, context_after m c = c.

(** The checks and the result of the P2→P3 gate, given the facts of the
    context and the ROI entry. *)
Definition p3_checks (ctx : context) (entry : option string) : list string :=
  [ if fact ctx "business_model_sound" then "✓ AXIS: Business model sound"
    else "✗ AXIS: Business model weak";
    if negb (fact ctx "unvalidated_claims") then "✓ BILL: No unvalidated claims"
    else "✗ BILL: Unvalidated claims exist" ]
  ++ option_list entry ++
  [ if fact ctx "timeline_realistic" then "✓ GANTT: Timeline realistic"
    else "✗ GANTT: Timeline unrealistic";
    if fact ctx "risks_mitigated" then "✓ SENECA: Risks mitigated"
    else "✗ SENECA: Risks not addressed";
    if fact ctx "tech_stack_validated" then "✓ TURING: Tech stack validated"
    else "✗ TURING: Tech stack not validated" ].

Definition p3_result (checks : list string) : GateResult :=
  {| g_valid := VBool (all_marked checks);
     g_gate := Some "P2 → P3 (Week 6 - Sacred $100 decision)";
     g_checks := Some checks;
     g_decision := Some (if all_marked checks then "PROCEED (return $100)"
                         else "HALT (keep $100)");
     g_reason := Some (if all_marked checks then "All validation passed"
                       else "Critical validation failed") |}.

Definition p3_entry (rt : Runtime) (self : PrologValidator) (ctx : context)
  : outcome (option string) :=
  roi_entry rt self "revenue" "costs" "✓ MIDAS: ROI " "✗ MIDAS: ROI " ctx.

(** The same for the P4→P5 gate. *)
Definition p5_checks (ctx : context) (entry : option string) : list string :=
  [ if fact ctx "validation_complete" then "✓ Validation complete"
    else "✗ Validation incomplete" ]
  ++ option_list entry ++
  [ if fact ctx "sustainability_proven" then "✓ Sustainability proven"
    else "✗ Sustainability not proven" ].

Definition p5_result (checks : list string) : GateResult :=
  {| g_valid := VBool (all_marked checks);
     g_gate := Some "P4 → P5 (Week 10 - Sustainability check)";
     g_checks := Some checks;
     g_decision := Some (if all_marked checks then "PROCEED (iterate)"
                         else "HALT (pivot or kill)");
     g_reason := Some (if all_marked checks then "Sustainable" else "Not sustainable") |}.

Definition p5_entry (rt : Runtime) (self : PrologValidator) (ctx : context)
  : outcome (option string) :=
  roi_entry rt self "actual_revenue" "actual_costs"
    "✓ Actual ROI: " "✗ Actual ROI: " ctx.

(** An entry the ROI block can produce: none, or a pass or fail line
    around a formatted number. *)
Definition entry_shape (pass fail : string) (entry : option string) (passed : bool) : Prop :=
  match entry with
  | None => passed = true
  | Some line =>
      exists shown, ascii_only shown = true /\
        line = if passed then pass +:+ shown +:+ "x"
               else fail +:+ shown +:+ "x (need 1.5x+)"
  end.

(** *** Sample contexts *)

(** The evidence of the design document's P2→P3 example. *)
Definition week6_context : context :=
  {[ "business_model_sound" := VBool true;
     "revenue" := VNum (Int 300000);
     "costs" := VNum (Int 100000);
     "timeline_realistic" := VBool true;
     "risks_mitigated" := VBool true;
     "tech_stack_validated" := VBool true ]}.

(** The same evidence with no revenue yet: the figure is there, and is 0. *)
Definition no_revenue_context : context :=
  <[ "revenue" := VNum (Int 0) ]> week6_context.

(** *** Reading audit records *)

(** What the design document says about one audit record: approved iff
    all three policies pass, otherwise reconsider; the warning is the
    suggested alternative, and is there iff complexity-avoidance fails. *)
Definition record_consistent (r : TechResult) : Prop :=
  simpler_checked r = s_valid (_check_simpler_alternative (tech r)) /\
  ai_friendly r = _check_ai_friendly (tech r) /\
  deploy_simple r = _check_deploy_simple (tech r) /\
  (recommendation r = "✓ Approved" <->
   simpler_checked r && ai_friendly r && deploy_simple r = true) /\
  (recommendation r = "✓ Approved" \/ recommendation r = "⚠ Reconsider") /\
  (simpler_checked r = false <->
   exists alt, warning r = Some alt /\
               s_alternative (_check_simpler_alternative (tech r)) = Some alt) /\
  (simpler_checked r = true <-> warning r = None).
(** ** Definitions used in the further statements *)

(** The evidence facts a gate looks up. *)
Definition gate_keys (phase : string) : list string :=
  if String.eqb phase "p1" then ["research_complete"; "tier"]
  else if String.eqb phase "p2" then ["business_model_sound"; "market_validated"]
  else if String.eqb phase "p3" then
    ["business_model_sound"; "unvalidated_claims"; "revenue"; "costs";
     "timeline_realistic"; "risks_mitigated"; "tech_stack_validated"]
  else if String.eqb phase "p4" then ["code_complete"; "tests_passing"; "deployment_ready"]
  else if String.eqb phase "p5" then
    ["validation_complete"; "actual_revenue"; "actual_costs"; "sustainability_proven"]
  else [].



(** Evidence with which the P3→P4 gate halts: deployment is not ready. *)
Definition release_context : context :=
  {[ "code_complete" := VBool true; "tests_passing" := VBool true ]}.

(** A string value. *)
Definition is_string (v : value) : bool :=
  match v with VStr _ => true | _ => false end.

(** The alternatives a warning can hold. *)
Definition reachable_alternatives : list string :=
  [ "Consider HTMX + Alpine.js for simpler SSR";
    "Consider HTMX or plain JS";
    "Consider Fly.io or Heroku unless 10K+ users";
    "Start with monolith, split later" ].

Fixpoint all_continuation (s : string) : bool :=
  match s with
  | EmptyString => true
  | String c t => continuation c && all_continuation t
  end.

(** A string that is one character: one byte followed by UTF-8
    continuation bytes only. *)
Definition single_char (s : string) : bool :=
  match s with
  | EmptyString => false
  | String _ t => all_continuation t
  end.

(** A word that opens with two ASCII characters, as every entry of the
    technology lists does. *)
Definition two_ascii (w : string) : bool :=
  match w with
  | String a (String b _) => seven_bit a && seven_bit b
  | _ => false
  end.

(** *** The sections of the report, as functions of the context *)

Definition report_title : string := "# Validation Report" +:+ newline.

Definition roi_section (rt : Runtime) (self : PrologValidator) (ctx : context)
  : outcome (list string) :=
  match ctx !! "revenue", ctx !! "costs" with
  | Some revenue, Some costs =>
      res ← validate_roi rt self revenue costs;
      shown ← format_2f (m_value res);
      limit ← index "threshold" (m_threshold res);
      Returns [ "## ROI Validation";
                "- ROI: " +:+ shown +:+ "x (threshold: " +:+ repr_float rt limit +:+ "x)";
                "- Status: " +:+ (if m_valid res then "✓ PASS" else "✗ FAIL");
                EmptyString ]
  | _, _ => Returns []
  end.

Definition ltv_cac_section (rt : Runtime) (self : PrologValidator) (ctx : context)
  : outcome (list string) :=
  match ctx !! "ltv", ctx !! "cac" with
  | Some ltv, Some cac =>
      res ← validate_ltv_cac rt self ltv cac;
      shown ← format_2f (m_value res);
      limit ← index "threshold" (m_threshold res);
      Returns [ "## Unit Economics Validation";
                "- LTV:CAC: " +:+ shown +:+ " (threshold: " +:+ repr_float rt limit +:+ ")";
                "- Status: " +:+ (if m_valid res then "✓ PASS" else "✗ FAIL");
                EmptyString ]
  | _, _ => Returns []
  end.

Definition phase_section (rt : Runtime) (self : PrologValidator) (ctx : context)
  : outcome (list string) :=
  match ctx !! "current_phase" with
  | Some phase =>
      gate_result ← result_of (validate_phase_gate rt self phase) ctx;
      gate ← index "gate" (g_gate gate_result);
      checks ← index "checks" (g_checks gate_result);
      decision ← index "decision" (g_decision gate_result);
      Returns (["## Phase Gate: " +:+ gate]
                 ++ map (fun check => "- " +:+ check) checks
                 ++ ["- Decision: **" +:+ decision +:+ "**"; EmptyString])
  | None => Returns []
  end.

Definition tech_section (ctx : context) : outcome (list string) :=
  match ctx !! "tech_stack" with
  | Some stack =>
      tech_result ← validate_tech_stack stack;
      Returns (["## Tech Stack Validation"]
                 ++ concat (map tech_lines (tech_choices tech_result))
                 ++ [EmptyString])
  | None => Returns []
  end.


(** * Properties *)

(** ** Evaluation on sample inputs *)

Example roi_of_week6 :
  reading Roi (VNum (Int 300000)) (VNum (Int 100000)) = Returns float_2_0.
Proof. by vm_compute. Qed.

(** The quotient of two ints is rounded once, to the nearest double:
    299999999999999999 / 200000000000000000 is 1.5. *)
Example roi_is_rounded :
  reading Roi (VNum (Int 499999999999999999)) (VNum (Int 200000000000000000))
  = Returns float_1_5.
Proof. by vm_compute. Qed.

Example roi_beyond_the_doubles :
  reading Roi (VNum (Int (10 ^ 400))) (VNum (Int 1)) = Raises OverflowError.
Proof. by vm_compute. Qed.

Example roi_of_infinities :
  reading Roi (VNum (Float (S754_infinity false))) (VNum (Float (S754_infinity false)))
  = Returns S754_nan.
Proof. by vm_compute. Qed.

Example fmt2f_two : fmt2f float_2_0 = "2.00".
Proof. by vm_compute. Qed.

Example fmt2f_neg : fmt2f <$> returned (int_truediv (-1) 2) = Some "-0.50".
Proof. by vm_compute. Qed.

Example fmt2f_round : fmt2f <$> returned (int_truediv 1234567 1000) = Some "1234.57".
Proof. by vm_compute. Qed.

Example fmt2f_negative_zero : fmt2f <$> returned (int_truediv 0 (-5)) = Some "-0.00".
Proof. by vm_compute. Qed.

Example lower_mixed : lower "Docker-Compose K8S" = "docker-compose k8s".
Proof. reflexivity. Qed.

Example week6_gate_proceeds :
  result_of (validate_phase_gate no_engine offline (VStr "p3")) week6_context =
  Returns
    {| g_valid := VBool true;
       g_gate := Some "P2 → P3 (Week 6 - Sacred $100 decision)";
       g_checks := Some [ "✓ AXIS: Business model sound";
                          "✓ BILL: No unvalidated claims";
                          "✓ MIDAS: ROI 2.00x";
                          "✓ GANTT: Timeline realistic";
                          "✓ SENECA: Risks mitigated";
                          "✓ TURING: Tech stack validated" ];
       g_decision := Some "PROCEED (return $100)";
       g_reason := Some "All validation passed" |}.
Proof. by vm_compute. Qed.

Example week6_gate_halts_on_claims :
  g_decision <$> returned
    (result_of (validate_phase_gate no_engine offline (VStr "p3"))
       (<[ "unvalidated_claims" := VBool true ]> week6_context)) =
  Some (Some "HALT (keep $100)").
Proof. by vm_compute. Qed.

(** With truthy figures and negative costs the metric is rejected with
    no reading, and formatting [None] with [:.2f] raises. *)
Example week6_gate_negative_costs :
  result_of (validate_phase_gate no_engine offline (VStr "p3"))
    (<[ "costs" := VNum (Int (-5)) ]> week6_context) = Raises TypeError.
Proof. by vm_compute. Qed.

Example report_unknown_phase :
  result_of (generate_validation_report no_engine offline)
    {[ "current_phase" := VStr "p9" ]} = Raises (KeyError "gate").
Proof. by vm_compute. Qed.

Example engine_found_at_construction :
  __init__ lenient_engine None = Returns online /\
  __init__ no_engine None = Returns offline /\
  __init__ no_engine (Some EmptyString) = Returns offline.
Proof. by repeat split. Qed.

(** ** Arithmetic of the guards *)


Lemma le_zero_num v d : as_num v = Some d -> le_zero v = Returns (num_le_zero d).
Proof. intros Hv. unfold le_zero. by rewrite Hv. Qed.

Lemma le_zero_nonnum v : as_num v = None -> le_zero v = Raises TypeError.
Proof. intros Hv. unfold le_zero. by rewrite Hv. Qed.

(** ** Rounding never turns a number that is not zero into zero *)

Lemma digits2_pos_lower p : (2 ^ (Zpos (digits2_pos p) - 1) <= Zpos p)%Z.
Proof.
  induction p as [p IH|p IH|]; cbn [digits2_pos]; [| |by vm_compute].
  - rewrite Pos2Z.inj_succ.
    replace (Z.succ (Zpos (digits2_pos p)) - 1)%Z with (Z.succ (Zpos (digits2_pos p) - 1))%Z
      by lia.
    rewrite Z.pow_succ_r by lia. lia.
  - rewrite Pos2Z.inj_succ.
    replace (Z.succ (Zpos (digits2_pos p)) - 1)%Z with (Z.succ (Zpos (digits2_pos p) - 1))%Z
      by lia.
    rewrite Z.pow_succ_r by lia. lia.
Qed.

Lemma shr_1_m mrs : (0 <= shr_m mrs)%Z -> shr_m (shr_1 mrs) = Z.div2 (shr_m mrs).
Proof. destruct mrs as [[|[p|p|]|p] r s]; cbn; try reflexivity; lia. Qed.

Lemma iter_shr_1_m n mrs :
  (0 <= shr_m mrs)%Z ->
  shr_m (SpecFloat.iter_pos shr_1 n mrs) = Z.shiftr (shr_m mrs) (Zpos n).
Proof.
  revert mrs. induction n as [n IH|n IH|]; intros mrs Hm; cbn [SpecFloat.iter_pos].
  - assert (H1 : (0 <= shr_m (shr_1 mrs))%Z).
    { rewrite shr_1_m by done. rewrite Z.div2_div. apply Z.div_pos; lia. }
    assert (H2 : (0 <= shr_m (SpecFloat.iter_pos shr_1 n (shr_1 mrs)))%Z).
    { rewrite IH by done. by apply Z.shiftr_nonneg. }
    rewrite IH, IH, shr_1_m by done.
    rewrite Z.div2_spec, !Z.shiftr_shiftr by lia. f_equal. lia.
  - assert (H2 : (0 <= shr_m (SpecFloat.iter_pos shr_1 n mrs))%Z).
    { rewrite IH by done. by apply Z.shiftr_nonneg. }
    rewrite IH, IH by done. rewrite Z.shiftr_shiftr by lia. f_equal. lia.
  - rewrite shr_1_m by done. apply Z.div2_spec.
Qed.

Lemma shr_record_of_loc_m m l : shr_m (shr_record_of_loc m l) = m.
Proof. by destruct l as [|[]]. Qed.

(** Shifting a mantissa to its format keeps it positive, as long as the
    exponent is in range. *)
Lemma shr_fexp_pos m e l :
  (emin prec emax <= e)%Z ->
  (0 < shr_m (shr_fexp prec emax (Zpos m) e l).1)%Z /\
  (emin prec emax <= (shr_fexp prec emax (Zpos m) e l).2)%Z.
Proof.
  intros He. unfold shr_fexp, shr.
  pose proof (digits2_pos_lower m) as Hm.
  destruct (fexp prec emax (Zdigits2 (Zpos m) + e) - e)%Z as [|n|n] eqn:Hn; cbn [fst snd];
    rewrite ?shr_record_of_loc_m; try (split; [lia|exact He]).
  unfold fexp, emin, prec, emax in *. cbn [Zdigits2] in Hn.
  split; [|lia].
  rewrite iter_shr_1_m by (rewrite shr_record_of_loc_m; lia).
  rewrite shr_record_of_loc_m, Z.shiftr_div_pow2 by lia.
  apply Z.div_str_pos. split; [apply Z.pow_pos_nonneg; lia|].
  etrans; [|exact Hm]. apply Z.pow_le_mono_r; lia.
Qed.

Lemma round_nearest_even_pos m l : (0 < m)%Z -> (0 < round_nearest_even m l)%Z.
Proof. intros H. destruct l as [|[]]; cbn; try lia. destruct (Z.even m); lia. Qed.

Lemma binary_round_aux_nonzero sx m e l :
  (emin prec emax <= e)%Z ->
  is_zero (binary_round_aux prec emax sx (Zpos m) e l) = false.
Proof.
  intros He. unfold binary_round_aux.
  destruct (shr_fexp_pos m e l He) as [Hm1 He1].
  destruct (shr_fexp prec emax (Zpos m) e l) as [mrs1 e1]. cbn [fst snd] in *.
  pose proof (round_nearest_even_pos _ (loc_of_shr_record mrs1) Hm1) as Hr.
  destruct (round_nearest_even (shr_m mrs1) (loc_of_shr_record mrs1)) as [|m2|m2]; try lia.
  destruct (shr_fexp_pos m2 e1 loc_Exact He1) as [Hm2 _].
  destruct (shr_fexp prec emax (Zpos m2) e1 loc_Exact) as [mrs2 e2]. cbn [fst snd] in *.
  destruct (shr_m mrs2); try lia.
  by destruct (_ <=? _)%Z.
Qed.

Lemma binary_normalize_nonzero z :
  z <> 0%Z -> is_zero (binary_normalize prec emax z 0 false) = false.
Proof.
  intros Hz.
  assert (forall sx m, is_zero (binary_round prec emax sx m 0) = false) as Hround.
  { intros sx m. unfold binary_round, shl_align.
    destruct (fexp prec emax (Zpos (digits2_pos m) + 0) - 0)%Z eqn:Hd;
      apply binary_round_aux_nonzero; unfold fexp, emin, prec, emax in *; lia. }
  destruct z; [done|apply Hround|apply Hround].
Qed.

(** An int that is not zero converts to a float that is not zero. *)
Lemma float_of_int_nonzero z f :
  z <> 0%Z -> float_of_int z = Returns f -> is_zero f = false.
Proof.
  intros Hz. unfold float_of_int.
  pose proof (binary_normalize_nonzero z Hz) as Hn.
  destruct (binary_normalize prec emax z 0 false); intros [= <-]; done.
Qed.

(** ** The exceptions of the arithmetic *)

Lemma float_of_int_raises z e : float_of_int z = Raises e -> e = OverflowError.
Proof.
  unfold float_of_int. destruct (binary_normalize prec emax z 0 false); by intros [= <-].
Qed.

Lemma as_float_raises n e : as_float n = Raises e -> e = OverflowError.
Proof. destruct n as [z|f]; [apply float_of_int_raises|discriminate]. Qed.

(** A number that passes the guard [n <= 0] of a metric is not zero as
    a float either. *)
Lemma as_float_positive n f :
  num_le_zero n = false -> as_float n = Returns f -> is_zero f = false.
Proof.
  destruct n as [z|g]; cbn [num_le_zero as_float].
  - intros Hz%Z.leb_gt. apply float_of_int_nonzero. lia.
  - intros Hle [= <-]. by destruct g.
Qed.

Lemma num_sub_raises x y e : num_sub x y = Raises e -> e = OverflowError.
Proof.
  destruct x as [a|f], y as [b|g]; cbn [num_sub as_float mbind outcome_bind];
    try discriminate.
  - destruct (float_of_int a) eqn:Ha; cbn [mbind outcome_bind]; [discriminate|].
    intros [= <-]. by apply float_of_int_raises in Ha.
  - destruct (float_of_int b) eqn:Hb; cbn [mbind outcome_bind]; [discriminate|].
    intros [= <-]. by apply float_of_int_raises in Hb.
Qed.

Lemma int_truediv_raises a b e :
  (b <=? 0)%Z = false -> int_truediv a b = Raises e -> e = OverflowError.
Proof.
  intros Hb%Z.leb_gt. unfold int_truediv. destruct b as [|b|b]; try lia.
  destruct a as [|a|a]; [discriminate| |];
    destruct (SFdiv _ _ _ _); by intros [= <-].
Qed.

Lemma num_truediv_raises x y e :
  num_le_zero y = false -> num_truediv x y = Raises e -> e = OverflowError.
Proof.
  intros Hpos. unfold num_truediv.
  assert (Hfloats : (a ← as_float x; b ← as_float y;
                     if is_zero b then Raises ZeroDivisionError
                     else Returns (SFdiv prec emax a b)) = Raises e ->
                    e = OverflowError).
  { destruct (as_float x) as [a|e1] eqn:Hx; cbn [mbind outcome_bind].
    2: { intros [= <-]. by apply as_float_raises in Hx. }
    destruct (as_float y) as [b|e2] eqn:Hy; cbn [mbind outcome_bind].
    2: { intros [= <-]. by apply as_float_raises in Hy. }
    by rewrite (as_float_positive y b Hpos Hy). }
  destruct x as [a|f], y as [b|g]; try exact Hfloats.
  by apply int_truediv_raises.
Qed.

Lemma num_sub_floats f g :
  num_sub (Float f) (Float g) = Returns (Float (SFsub prec emax f g)).
Proof. reflexivity. Qed.

Lemma num_truediv_floats f g :
  num_le_zero (Float g) = false ->
  num_truediv (Float f) (Float g) = Returns (SFdiv prec emax f g).
Proof.
  intros Hpos. cbn [num_truediv as_float mbind outcome_bind].
  by rewrite (as_float_positive (Float g) g Hpos eq_refl).
Qed.

Lemma py_sub_nonnum_l a b : as_num a = None -> py_sub a b = Raises TypeError.
Proof. intros H. unfold py_sub. by rewrite H. Qed.

Lemma py_sub_nonnum_r a b : as_num b = None -> py_sub a b = Raises TypeError.
Proof. intros H. unfold py_sub. rewrite H. by destruct (as_num a). Qed.

Lemma py_truediv_nonnum_l a b : as_num a = None -> py_truediv a b = Raises TypeError.
Proof. intros H. unfold py_truediv. by rewrite H. Qed.

Lemma is_float_num v : is_float v = true -> exists f, v = VNum (Float f).
Proof. destruct v as [| |[z|f]| |]; try discriminate. by exists f. Qed.

(** Two floats never raise, once the guard of the metric has let the
    denominator through. *)
Lemma reading_floats m f g :
  num_le_zero (denominator m (Float f) (Float g)) = false ->
  exists q, reading m (VNum (Float f)) (VNum (Float g)) = Returns q.
Proof.
  intros Hpos. destruct m; cbn [denominator] in Hpos;
    cbn [reading py_sub py_truediv as_num num_sub as_float mbind outcome_bind].
  - rewrite (num_truediv_floats _ _ Hpos). by eexists.
  - rewrite (num_truediv_floats _ _ Hpos). by eexists.
  - rewrite (num_truediv_floats _ _ Hpos). by eexists.
Qed.

(** What the arithmetic of a metric raises when the denominator has
    passed the guard: [TypeError] for an operand that is not a number,
    [OverflowError] for an int beyond the doubles; never
    [ZeroDivisionError]. *)
Lemma reading_raises m a b d e :
  as_num (denominator m a b) = Some d -> num_le_zero d = false ->
  reading m a b = Raises e ->
  (e = TypeError /\ as_num (numerator m a b) = None) \/
  (e = OverflowError /\ is_Some (as_num (numerator m a b)) /\
   is_float a && is_float b = false).
Proof.
  intros Hd Hpos Hraise.
  destruct (as_num (numerator m a b)) as [n|] eqn:Hn.
  - right.
    assert (He : e = OverflowError).
    { destruct m; cbn [denominator numerator reading] in *.
      - unfold py_sub in Hraise. rewrite Hn, Hd in Hraise.
        destruct (num_sub n d) as [diff|e1] eqn:Hsub; cbn [mbind outcome_bind] in Hraise.
        + unfold py_truediv in Hraise. cbn [as_num] in Hraise. rewrite Hd in Hraise.
          exact (num_truediv_raises _ _ _ Hpos Hraise).
        + injection Hraise as <-. exact (num_sub_raises _ _ _ Hsub).
      - unfold py_truediv in Hraise. rewrite Hn, Hd in Hraise.
        exact (num_truediv_raises _ _ _ Hpos Hraise).
      - unfold py_sub in Hraise. rewrite Hn, Hd in Hraise.
        destruct (num_sub d n) as [diff|e1] eqn:Hsub; cbn [mbind outcome_bind] in Hraise.
        + unfold py_truediv in Hraise. cbn [as_num] in Hraise. rewrite Hd in Hraise.
          destruct (num_truediv diff d) as [frac|e2] eqn:Hdiv;
            cbn [mbind outcome_bind] in Hraise; [discriminate|].
          injection Hraise as <-. exact (num_truediv_raises _ _ _ Hpos Hdiv).
        + injection Hraise as <-. exact (num_sub_raises _ _ _ Hsub). }
    split; [exact He|]. split; [by eexists|].
    destruct (is_float a && is_float b) eqn:Hfl; [|reflexivity].
    apply andb_true_iff in Hfl as [[f ->]%is_float_num [g ->]%is_float_num].
    assert (Hg : num_le_zero (denominator m (Float f) (Float g)) = false).
    { destruct m; cbn [denominator as_num] in *; congruence. }
    destruct (reading_floats m f g Hg) as [q Hq]. congruence.
  - left. split; [|reflexivity].
    destruct m; cbn [denominator numerator reading] in *.
    + rewrite (py_sub_nonnum_l _ _ Hn) in Hraise. by injection Hraise.
    + rewrite (py_truediv_nonnum_l _ _ Hn) in Hraise. by injection Hraise.
    + rewrite (py_sub_nonnum_r _ _ Hn) in Hraise. by injection Hraise.
Qed.

(** ** The adapter *)

Lemma _query_prolog_confirms rt self query :
  _query_prolog rt self query =
  Returns (if confirms rt self query then Some {| success := true |} else None).
Proof.
  unfold _query_prolog, confirms.
  destruct (prolog_available self); cbn [negb andb]; [|reflexivity].
  destruct (swipl_goal rt query (prolog_file self)) as [elapsed rc| |e];
    cbn [subprocess_run]; [|reflexivity|reflexivity].
  destruct (Qle_bool elapsed 5); cbn [mbind outcome_bind try_except returncode andb];
    [|reflexivity].
  by destruct (rc =? 0)%Z.
Qed.

(** ** The three metrics on inputs that pass the guard *)

(** What is left of an evaluator once the reading is there. *)
Lemma verdict_of_reading rt self query (q limit : spec_float) (bad ok : string) :
  (if prolog_available self then
     result ← _query_prolog rt self query;
     match result with
     | Some _ => Returns (external_result q limit)
     | None => Returns (fallback_result q limit bad ok)
     end
   else Returns (fallback_result q limit bad ok)) =
  Returns (if confirms rt self query then external_result q limit
           else fallback_result q limit bad ok).
Proof.
  destruct (prolog_available self) eqn:Hav.
  - rewrite _query_prolog_confirms. cbn [mbind outcome_bind].
    by destruct (confirms rt self query).
  - assert (confirms rt self query = false) as -> by (unfold confirms; by rewrite Hav).
    reflexivity.
Qed.

(** Every metric, on a denominator that passes its guard, computes its
    reading and returns the external result when the engine confirms
    and the fallback result otherwise. *)
Lemma evaluate_pos m rt self a b d :
  as_num (denominator m a b) = Some d -> num_le_zero d = false ->
  evaluate m rt self a b =
  (q ← reading m a b;
   Returns (if confirms rt self (query_of m rt a b)
            then external_result q (threshold m)
            else fallback_of m q)).
Proof.
  intros Hd Hpos.
  destruct m; cbn [evaluate denominator query_of reading threshold fallback_of] in *.
  - unfold validate_roi. rewrite (le_zero_num _ _ Hd), Hpos. cbn [mbind outcome_bind].
    destruct (py_sub a b) as [diff|e]; cbn [mbind outcome_bind]; [|reflexivity].
    destruct (py_truediv (VNum diff) b) as [roi|e]; cbn [mbind outcome_bind];
      [|reflexivity].
    apply (verdict_of_reading rt self (roi_query rt a b)).
  - unfold validate_ltv_cac. rewrite (le_zero_num _ _ Hd), Hpos. cbn [mbind outcome_bind].
    destruct (py_truediv a b) as [ratio|e]; cbn [mbind outcome_bind]; [|reflexivity].
    apply (verdict_of_reading rt self (ltv_cac_query rt a b)).
  - unfold validate_margin. rewrite (le_zero_num _ _ Hd), Hpos. cbn [mbind outcome_bind].
    destruct (py_sub a b) as [diff|e]; cbn [mbind outcome_bind]; [|reflexivity].
    destruct (py_truediv (VNum diff) a) as [frac|e]; cbn [mbind outcome_bind];
      [|reflexivity].
    apply (verdict_of_reading rt self (margin_query rt a b)).
Qed.

(** Every metric rejects a denominator that is not positive, whatever
    the other operand is. *)
Lemma evaluate_nonpos m rt self a b d :
  as_num (denominator m a b) = Some d -> num_le_zero d = true ->
  evaluate m rt self a b = Returns (rejected m).
Proof.
  intros Hd Hle. destruct m; cbn [evaluate denominator] in *.
  - unfold validate_roi. by rewrite (le_zero_num _ _ Hd), Hle.
  - unfold validate_ltv_cac. by rewrite (le_zero_num _ _ Hd), Hle.
  - unfold validate_margin. by rewrite (le_zero_num _ _ Hd), Hle.
Qed.

Lemma evaluate_nonnum_denominator m rt self a b :
  as_num (denominator m a b) = None -> evaluate m rt self a b = Raises TypeError.
Proof.
  intros H. destruct m; cbn [evaluate denominator] in *;
    [unfold validate_roi|unfold validate_ltv_cac|unfold validate_margin];
    by rewrite (le_zero_nonnum _ H).
Qed.

(** A metric that returns at all was given a numeric denominator, and
    returns one of three results. *)
Lemma evaluate_returns m rt self a b res :
  evaluate m rt self a b = Returns res ->
  (exists d, as_num (denominator m a b) = Some d /\ num_le_zero d = true /\
     res = rejected m) \/
  (exists d q, as_num (denominator m a b) = Some d /\ num_le_zero d = false /\
     reading m a b = Returns q /\
     res = if confirms rt self (query_of m rt a b)
           then external_result q (threshold m)
           else fallback_of m q).
Proof.
  destruct (as_num (denominator m a b)) as [d|] eqn:Hd.
  2: { by rewrite (evaluate_nonnum_denominator m rt self a b Hd). }
  destruct (num_le_zero d) eqn:Hle.
  - rewrite (evaluate_nonpos m rt self a b d Hd Hle). intros [= <-]. left. by exists d.
  - rewrite (evaluate_pos m rt self a b d Hd Hle).
    destruct (reading m a b) as [q|e]; cbn [mbind outcome_bind]; [|discriminate].
    intros [= <-]. right. by exists d, q.
Qed.


(** ** Claims about the metrics and the adapter *)

(** C3, as stated, fails: with the engine unavailable and costs of 1,
    a revenue of 10^400 makes [validate_roi] raise [OverflowError]
    where the claim has it return a result. *)
Lemma roi_of_huge_revenue_raises :
  prolog_available offline = false /\
  le_zero (VNum (Int 1)) = Returns false /\
  validate_roi no_engine offline (VNum (Int (10 ^ 400))) (VNum (Int 1))
  = Raises OverflowError.
Proof. split; [reflexivity|]. split; [reflexivity|]. by vm_compute. Qed.

(** C3, amended: when the external engine is unavailable and the costs
    pass the guard (they are not [<= 0]), [validate_roi] does what the
    division [(revenue - costs) / costs] does in Python's arithmetic:
    when that gives the double [roi], it returns a result whose [valid]
    field is [roi >= 1.5] and whose reported ROI is [roi]; when it
    raises (TypeError for a revenue that is not a number, OverflowError
    for an int beyond the doubles), so does [validate_roi]; and it never
    raises when revenue and costs are both floats. *)
Theorem roi_fallback_verdict (rt : Runtime) (self : PrologValidator)
    (revenue costs : value) (c : number) :
  as_num costs = Some c -> num_le_zero c = false ->
  prolog_available self = false ->
  (forall roi, reading Roi revenue costs = Returns roi ->
     exists res,
       validate_roi rt self revenue costs = Returns res /\
       m_valid res = float_ge roi float_1_5 /\
       m_value res = Some roi /\
       m_validated_by res = Some "python") /\
  (forall e, reading Roi revenue costs = Raises e ->
     validate_roi rt self revenue costs = Raises e /\
     arithmetic_error e revenue costs) /\
  (is_float revenue && is_float costs = true ->
   exists roi, reading Roi revenue costs = Returns roi).
Proof.
  intros Hc Hpos Hoff.
  pose proof (evaluate_pos Roi rt self revenue costs c Hc Hpos) as Hrun.
  cbn [evaluate query_of] in Hrun.
  assert (confirms rt self (roi_query rt revenue costs) = false) as Hmiss
    by (unfold confirms; by rewrite Hoff).
  rewrite Hmiss in Hrun. split; [|split].
  - intros roi Hroi. rewrite Hrun, Hroi. cbn [mbind outcome_bind].
    eexists. split; [reflexivity|]. by repeat split.
  - intros e He. rewrite Hrun, He. split; [reflexivity|].
    destruct (reading_raises Roi revenue costs c e Hc Hpos He)
      as [[-> _]|(-> & _ & Hfl)]; [by left|by right].
  - intros [[f ->]%is_float_num [g ->]%is_float_num]%andb_true_iff.
    apply reading_floats. cbn [denominator]. by injection Hc as <-.
Qed.

Lemma roi_fallback_verdict_witness :
  exists res,
    validate_roi no_engine offline (VNum (Int 300000)) (VNum (Int 100000)) = Returns res /\
    m_valid res = float_ge float_2_0 float_1_5 /\
    m_value res = Some float_2_0 /\
    m_validated_by res = Some "python".
Proof.
  exact (proj1 (roi_fallback_verdict no_engine offline (VNum (Int 300000))
                  (VNum (Int 100000)) (Int 100000) eq_refl eq_refl eq_refl)
           float_2_0 eq_refl).
Defined.

(** C4: each metric, given a denominator that is not positive (costs
    for ROI, CAC for LTV:CAC, revenue for margin), returns without
    raising a result with [valid] false, no reading and a reason asking
    for a positive denominator; and a returned result has no reading
    only in that case, where [valid] is false. *)
Theorem reading_missing_iff_guard_fails (m : metric) (rt : Runtime)
    (self : PrologValidator) (a b : value) :
  (forall d, as_num (denominator m a b) = Some d -> num_le_zero d = true ->
     evaluate m rt self a b = Returns (rejected m) /\
     m_valid (rejected m) = false /\
     m_value (rejected m) = None /\
     exists what, m_reason (rejected m) = Some (what +:+ " must be positive")) /\
  (forall res, evaluate m rt self a b = Returns res -> m_value res = None ->
     (exists d, as_num (denominator m a b) = Some d /\ num_le_zero d = true) /\
     m_valid res = false).
Proof.
  split.
  - intros d Hd Hle. split; [by apply (evaluate_nonpos m rt self a b d)|].
    split; [reflexivity|]. split; [reflexivity|].
    destruct m; [by exists "Costs"|by exists "CAC"|by exists "Revenue"].
  - intros res Hres Hnone.
    destruct (evaluate_returns m rt self a b res Hres)
      as [(d & Hd & Hle & ->)|(d & q & _ & _ & _ & ->)].
    + split; [by exists d|reflexivity].
    + exfalso. destruct (confirms rt self (query_of m rt a b)); [discriminate|].
      destruct m; discriminate.
Qed.

Lemma reading_missing_iff_guard_fails_witness :
  evaluate Roi lenient_engine online (VStr "n/a") (VNum (Int (-5)))
    = Returns (rejected Roi) /\
  evaluate LtvCac no_engine offline (VNum (Int 900)) (VNum (Float (S754_zero true)))
    = Returns (rejected LtvCac) /\
  evaluate Margin no_engine offline (VBool false) (VNum (Int 10)) = Returns (rejected Margin).
Proof.
  split; [|split].
  - apply (reading_missing_iff_guard_fails Roi lenient_engine online
             (VStr "n/a") (VNum (Int (-5)))) with (d := Int (-5)); reflexivity.
  - apply (reading_missing_iff_guard_fails LtvCac no_engine offline
             (VNum (Int 900)) (VNum (Float (S754_zero true))))
      with (d := Float (S754_zero true)); reflexivity.
  - apply (reading_missing_iff_guard_fails Margin no_engine offline
             (VBool false) (VNum (Int 10))) with (d := Int 0); reflexivity.
Defined.

(** C1, as the design document states it, fails: with a rule file in
    which [roi_positive] succeeds for revenue 100 and costs 100, the
    confirmed result is valid while the fallback comparison on the same
    inputs is not. *)
Lemma confirmed_and_fallback_disagree :
  exists ext fb,
    validate_roi lenient_engine online (VNum (Int 100)) (VNum (Int 100)) = Returns ext /\
    m_validated_by ext = Some "prolog" /\
    validate_roi no_engine offline (VNum (Int 100)) (VNum (Int 100)) = Returns fb /\
    m_validated_by fb = Some "python" /\
    m_value ext = m_value fb /\
    m_valid ext = true /\
    m_valid fb = false.
Proof. eexists _, _. repeat split; by vm_compute. Qed.

(** C1, amended: a result confirmed by the external engine is valid and
    carries the reading Python computes from the inputs, the reading the
    fallback reports as well; it agrees with the verdict of the fallback
    comparison exactly when that reading reaches the threshold; the
    fallback result is the one every run returns on which the engine
    does not confirm. *)
Theorem confirmed_verdict_vs_fallback (m : metric) (rt : Runtime)
    (self : PrologValidator) (a b : value) (ext : MetricResult) :
  evaluate m rt self a b = Returns ext ->
  m_validated_by ext = Some "prolog" ->
  exists q,
    reading m a b = Returns q /\
    m_valid ext = true /\
    m_value ext = Some q /\
    (forall rt' self', confirms rt' self' (query_of m rt' a b) = false ->
       evaluate m rt' self' a b = Returns (fallback_of m q)) /\
    m_validated_by (fallback_of m q) = Some "python" /\
    m_value (fallback_of m q) = m_value ext /\
    m_valid (fallback_of m q) = fallback_verdict m q /\
    (m_valid ext = m_valid (fallback_of m q) <-> float_ge q (threshold m) = true).
Proof.
  intros Hext Hby.
  destruct (evaluate_returns m rt self a b ext Hext)
    as [(d & _ & _ & ->)|(d & q & Hd & Hpos & Hq & ->)]; [discriminate|].
  destruct (confirms rt self (query_of m rt a b)).
  2: { destruct m; discriminate. }
  exists q. split; [exact Hq|]. split; [reflexivity|]. split; [reflexivity|]. split.
  { intros rt' self' Hmiss.
    by rewrite (evaluate_pos m rt' self' a b d Hd Hpos), Hq, Hmiss. }
  split; [by destruct m|]. split; [by destruct m|].
  assert (Hv : m_valid (fallback_of m q) = fallback_verdict m q) by (by destruct m).
  split; [exact Hv|]. rewrite Hv. unfold fallback_verdict.
  cbn [m_valid external_result]. split; congruence.
Qed.

Lemma confirmed_verdict_vs_fallback_witness :
  exists q,
    reading Roi (VNum (Int 300000)) (VNum (Int 100000)) = Returns q /\
    m_valid (external_result float_2_0 (threshold Roi)) = true /\
    m_value (external_result float_2_0 (threshold Roi)) = Some q.
Proof.
  destruct (confirmed_verdict_vs_fallback Roi lenient_engine online
              (VNum (Int 300000)) (VNum (Int 100000))
              (external_result float_2_0 (threshold Roi)) eq_refl eq_refl)
    as (q & Hq & Hvalid & Hvalue & _).
  exists q. split; [exact Hq|]. split; [exact Hvalid|exact Hvalue].
Defined.



(** ** Strings *)

Lemma append_cons c a b : String c a +:+ b = String c (a +:+ b).
Proof. reflexivity. Qed.

Lemma append_nil b : EmptyString +:+ b = b.
Proof. reflexivity. Qed.

Lemma ascii_only_app a b : ascii_only (a +:+ b) = ascii_only a && ascii_only b.
Proof.
  induction a as [|c a IH]; [reflexivity|].
  rewrite append_cons. cbn [ascii_only]. rewrite IH. by rewrite andb_assoc.
Qed.

Lemma string_of_uint_ascii u : ascii_only (NilEmpty.string_of_uint u) = true.
Proof. induction u; cbn; auto. Qed.

Lemma digits_ascii n : ascii_only (digits n) = true.
Proof.
  unfold digits, NilZero.string_of_uint.
  destruct (N.to_uint (Z.to_N n)) eqn:E; try reflexivity;
    rewrite <- E; apply string_of_uint_ascii.
Qed.

Lemma fmt2f_ascii x : ascii_only (fmt2f x) = true.
Proof.
  destruct x as [[]|[]| |[] m e]; try reflexivity;
    cbn [fmt2f]; unfold fmt2f_abs; by rewrite !ascii_only_app, !digits_ascii.
Qed.

Lemma is_prefix_mark_seven_bit c t :
  seven_bit c = true -> is_prefix "✓" (String c t) = false.
Proof.
  intros H. cbn [is_prefix].
  assert (Ascii.eqb "226"%char c = false) as ->; [|reflexivity].
  apply Ascii.eqb_neq. destruct c; cbn in H.
  intros [= <- <- <- <- <- <- <- <-]. discriminate.
Qed.

(** No text made of ASCII characters holds the pass marker. *)
Lemma contains_mark_ascii s t :
  ascii_only s = true -> contains "✓" (s +:+ t) = contains "✓" t.
Proof.
  induction s as [|c s IH]; [reflexivity|].
  cbn [ascii_only]. intros [Hc Hs]%andb_true_iff.
  rewrite append_cons.
  cbn [contains]. rewrite (is_prefix_mark_seven_bit _ _ Hc). by rewrite IH.
Qed.

(** ** The ROI entry of the P2→P3 and P4→P5 gates *)

Lemma truthy_default_Some (ctx : context) key :
  fact ctx key = true -> ctx !! key = Some (default VNone (ctx !! key)).
Proof. unfold fact. by destruct (ctx !! key). Qed.



Lemma roi_entry_returns rt self rk ck pass fail ctx entry :
  roi_entry rt self rk ck pass fail ctx = Returns entry ->
  (entry = None /\ fact ctx rk && fact ctx ck = false) \/
  (exists res x,
     fact ctx rk && fact ctx ck = true /\
     validate_roi rt self (default VNone (ctx !! rk)) (default VNone (ctx !! ck))
       = Returns res /\
     m_value res = Some x /\
     entry = Some (if m_valid res then pass +:+ fmt2f x +:+ "x"
                   else fail +:+ fmt2f x +:+ "x (need 1.5x+)")).
Proof.
  unfold roi_entry. destruct (fact ctx rk && fact ctx ck).
  - destruct (validate_roi rt self _ _) as [res|e]; [|discriminate].
    cbn [mbind outcome_bind].
    destruct (m_value res) as [x|] eqn:Hx; [|discriminate].
    cbn [format_2f mbind outcome_bind]. intros [= <-].
    right. by exists res, x.
  - intros [= <-]. by left.
Qed.

(** An entry that was produced has the shape of a pass or fail line. *)
Lemma roi_entry_shape rt self rk ck pass fail ctx entry :
  roi_entry rt self rk ck pass fail ctx = Returns entry ->
  exists passed, entry_shape pass fail entry passed.
Proof.
  intros [[-> _]|(res & x & _ & _ & _ & ->)]%roi_entry_returns.
  - by exists true.
  - exists (m_valid res), (fmt2f x). split; [apply fmt2f_ascii|reflexivity].
Qed.

(** ** The gates as functions of the facts *)

Ltac run_M :=
  cbv beta iota delta [result_of context_after fst snd mbind M_bind mret M_ret
                       dict_get dict_get_default lift dict_index dict_contains].

(** Runs the ROI block of a gate whose computation has been unfolded,
    and compares it with [roi_entry]. *)
Ltac roi_block ctx rk ck :=
  change (truthy (default VNone (ctx !! rk))) with (fact ctx rk);
  destruct (fact ctx rk) eqn:Hrev; cbv beta iota; cbn [andb];
  [ change (truthy (default VNone (ctx !! ck))) with (fact ctx ck);
    destruct (fact ctx ck) eqn:Hcosts; cbv beta iota; [|reflexivity];
    rewrite (truthy_default_Some _ _ Hrev), (truthy_default_Some _ _ Hcosts);
    cbn [default from_option id];
    destruct (validate_roi _ _ _ _) as [res|e];
      cbv beta iota delta [outcome_bind]; [|reflexivity];
    destruct (m_valid res); destruct (format_2f (m_value res)); reflexivity
  | change (truthy (default VNone (ctx !! rk))) with (fact ctx rk);
    rewrite Hrev; reflexivity ].

Lemma gate_p3_run rt self ctx :
  _validate_gate_p3 rt self ctx =
  (match p3_entry rt self ctx with
   | Returns entry => Returns (p3_result (p3_checks ctx entry))
   | Raises e => Raises e
   end, ctx).
Proof.
  unfold _validate_gate_p3, p3_entry, roi_entry. run_M.
  roi_block ctx "revenue" "costs".
Qed.

Lemma gate_p5_run rt self ctx :
  _validate_gate_p5 rt self ctx =
  (match p5_entry rt self ctx with
   | Returns entry => Returns (p5_result (p5_checks ctx entry))
   | Raises e => Raises e
   end, ctx).
Proof.
  unfold _validate_gate_p5, p5_entry, roi_entry. run_M.
  roi_block ctx "actual_revenue" "actual_costs".
Qed.

(** ** Pass markers in the check lines *)

Ltac entry_lines :=
  repeat rewrite append_cons; repeat rewrite append_nil;
  cbn -[String.append];
  repeat rewrite contains_mark_ascii by assumption;
  try reflexivity.

Lemma midas_entry_marks entry passed :
  entry_shape "✓ MIDAS: ROI " "✗ MIDAS: ROI " entry passed ->
  all_marked (option_list entry) = passed /\
  forallb check_passed (option_list entry) = passed /\
  existsb is_roi_entry (option_list entry) = bool_decide (is_Some entry).
Proof.
  destruct entry as [line|]; cbn [entry_shape option_list].
  - intros (shown & Hascii & ->). unfold all_marked, check_passed, is_roi_entry.
    destruct passed; (split; [|split]); entry_lines.
  - intros ->. by split.
Qed.

Lemma actual_entry_marks entry passed :
  entry_shape "✓ Actual ROI: " "✗ Actual ROI: " entry passed ->
  all_marked (option_list entry) = passed /\
  forallb check_passed (option_list entry) = passed /\
  existsb is_roi_entry (option_list entry) = bool_decide (is_Some entry).
Proof.
  destruct entry as [line|]; cbn [entry_shape option_list].
  - intros (shown & Hascii & ->). unfold all_marked, check_passed, is_roi_entry.
    destruct passed; (split; [|split]); entry_lines.
  - intros ->. by split.
Qed.

Lemma p3_marks ctx entry passed :
  entry_shape "✓ MIDAS: ROI " "✗ MIDAS: ROI " entry passed ->
  all_marked (p3_checks ctx entry) =
    fact ctx "business_model_sound" && negb (fact ctx "unvalidated_claims") &&
    passed && fact ctx "timeline_realistic" && fact ctx "risks_mitigated" &&
    fact ctx "tech_stack_validated" /\
  forallb check_passed (p3_checks ctx entry) = all_marked (p3_checks ctx entry) /\
  existsb is_roi_entry (p3_checks ctx entry) = bool_decide (is_Some entry).
Proof.
  intros (Hm & Hp & Hr)%midas_entry_marks.
  unfold p3_checks, all_marked in *.
  rewrite !forallb_app, !existsb_app, Hm, Hp, Hr.
  destruct (fact ctx "business_model_sound"), (fact ctx "unvalidated_claims"),
    (fact ctx "timeline_realistic"), (fact ctx "risks_mitigated"),
    (fact ctx "tech_stack_validated"), passed, (bool_decide (is_Some entry));
    by vm_compute.
Qed.

Lemma p5_marks ctx entry passed :
  entry_shape "✓ Actual ROI: " "✗ Actual ROI: " entry passed ->
  all_marked (p5_checks ctx entry) =
    fact ctx "validation_complete" && passed && fact ctx "sustainability_proven" /\
  forallb check_passed (p5_checks ctx entry) = all_marked (p5_checks ctx entry) /\
  existsb is_roi_entry (p5_checks ctx entry) = bool_decide (is_Some entry).
Proof.
  intros (Hm & Hp & Hr)%actual_entry_marks.
  unfold p5_checks, all_marked in *.
  rewrite !forallb_app, !existsb_app, Hm, Hp, Hr.
  destruct (fact ctx "validation_complete"), (fact ctx "sustainability_proven"),
    passed, (bool_decide (is_Some entry)); by vm_compute.
Qed.

(** ** Claims about the ROI sub-check *)

(** C5 does not hold of the code: revenue and costs are both present in
    the context, revenue being 0, and the P2→P3 gate evaluates no ROI
    sub-check and passes, because its guard asks for truthy figures;
    the report, which asks whether the keys are in the context, does
    evaluate the ROI of the same context. *)
Theorem roi_present_but_not_checked :
  exists r checks text,
    no_revenue_context !! "revenue" = Some (VNum (Int 0)) /\
    no_revenue_context !! "costs" = Some (VNum (Int 100000)) /\
    result_of (_validate_gate_p3 no_engine offline) no_revenue_context = Returns r /\
    g_checks r = Some checks /\
    existsb is_roi_entry checks = false /\
    g_valid r = VBool true /\
    result_of (generate_validation_report no_engine offline) no_revenue_context
      = Returns text /\
    contains "## ROI Validation" text = true /\
    contains "- ROI: -1.00x" text = true.
Proof. eexists _, _, _. repeat split; by vm_compute. Qed.


(** ** The gate table *)

Lemma phase_gate_known rt self :
  validate_phase_gate rt self (VStr "p1") = _validate_gate_p1 /\
  validate_phase_gate rt self (VStr "p2") = _validate_gate_p2 /\
  validate_phase_gate rt self (VStr "p3") = _validate_gate_p3 rt self /\
  validate_phase_gate rt self (VStr "p4") = _validate_gate_p4 /\
  validate_phase_gate rt self (VStr "p5") = _validate_gate_p5 rt self.
Proof. repeat split. Qed.

Lemma in_strs_inv v l : in_strs v l = true -> exists s, v = VStr s /\ In s l.
Proof.
  unfold in_strs. rewrite existsb_exists. intros (s & Hin & Heq).
  destruct v; try discriminate. apply String.eqb_eq in Heq. subst. eauto.
Qed.



(** ** The P0→P1 gate *)

Lemma gate_p1_returns ctx r :
  result_of _validate_gate_p1 ctx = Returns r ->
  exists tier_upper,
    py_upper (default (VStr "t4") (ctx !! "tier")) = Returns tier_upper /\
    g_valid r = py_and (default VNone (ctx !! "research_complete"))
                  (VBool (in_strs (default (VStr "t4") (ctx !! "tier")) ["t1"; "t2"])) /\
    g_checks r =
      Some [ if fact ctx "research_complete" then "✓ Research complete"
             else "✗ Research incomplete";
             if in_strs (default (VStr "t4") (ctx !! "tier")) ["t1"; "t2"]
             then "✓ Tier " +:+ tier_upper +:+ " (proceed)"
             else "✗ Tier " +:+ tier_upper +:+ " (no-go)" ].
Proof.
  unfold _validate_gate_p1. run_M.
  destruct (py_upper _) as [tier_upper|e]; [|discriminate].
  intros [= <-]. by exists tier_upper.
Qed.

(** C10: when the tier fact is absent the P0→P1 gate takes the tier to
    be t4 and fails the tier sub-check; so the gate returns a true valid
    only for a context that maps tier to t1 or t2 and has a truthy
    research_complete. *)
Theorem absent_tier_is_t4 (rt : Runtime) (self : PrologValidator) (ctx : context) :
  (ctx !! "tier" = None ->
   exists r,
     result_of (validate_phase_gate rt self (VStr "p1")) ctx = Returns r /\
     g_checks r = Some [ if fact ctx "research_complete" then "✓ Research complete"
                         else "✗ Research incomplete";
                         "✗ Tier T4 (no-go)" ] /\
     truthy (g_valid r) = false /\
     g_decision r = Some "HALT") /\
  (forall r,
     result_of (validate_phase_gate rt self (VStr "p1")) ctx = Returns r ->
     truthy (g_valid r) = true ->
     g_valid r = VBool true /\
     (ctx !! "tier" = Some (VStr "t1") \/ ctx !! "tier" = Some (VStr "t2")) /\
     fact ctx "research_complete" = true).
Proof.
  destruct (phase_gate_known rt self) as [-> _]. split.
  - intros Hnone. unfold _validate_gate_p1. run_M. rewrite Hnone. cbn [default py_upper].
    eexists. split; [reflexivity|]. cbn [g_checks g_valid g_decision].
    split; [reflexivity|].
    assert (Hfalse : truthy (py_and (default VNone (ctx !! "research_complete"))
                               (VBool (in_strs (VStr "t4") ["t1"; "t2"]))) = false).
    { unfold py_and. by destruct (truthy (default VNone (ctx !! "research_complete"))) eqn:E. }
    split; [exact Hfalse|]. cbn [from_option id] in *. by rewrite Hfalse.
  - intros r (tier_upper & _ & Hvalid & _)%gate_p1_returns Htrue.
    rewrite Hvalid in *. unfold py_and in *. unfold fact.
    destruct (truthy (default VNone (ctx !! "research_complete"))) eqn:Hrc;
      [|congruence].
    cbn [truthy] in Htrue. rewrite Htrue. split; [reflexivity|]. split; [|reflexivity].
    apply in_strs_inv in Htrue as (s & Hs & Hin).
    destruct (ctx !! "tier") as [tier|] eqn:Htier; cbn [default from_option id] in Hs.
    + subst tier. cbn [In] in Hin. destruct Hin as [<-|[<-|[]]]; auto.
    + injection Hs as <-. cbn [In] in Hin. destruct Hin as [[=]|[[=]|[]]].
Qed.

Lemma absent_tier_is_t4_witness :
  exists r,
    result_of (validate_phase_gate no_engine offline (VStr "p1"))
      {[ "research_complete" := VBool true ]} = Returns r /\
    g_checks r = Some [ "✓ Research complete"; "✗ Tier T4 (no-go)" ] /\
    truthy (g_valid r) = false /\
    g_decision r = Some "HALT".
Proof.
  exact (proj1 (absent_tier_is_t4 no_engine offline {[ "research_complete" := VBool true ]})
           eq_refl).
Defined.

(** ** The remaining gates, and what [valid] is for each gate *)

Lemma gate_p2_returns ctx r :
  result_of _validate_gate_p2 ctx = Returns r ->
  g_valid r = py_and (default VNone (ctx !! "business_model_sound"))
                (default VNone (ctx !! "market_validated")) /\
  g_checks r =
    Some [ if fact ctx "business_model_sound" then "✓ Business model sound"
           else "✗ Business model weak";
           if fact ctx "market_validated" then "✓ Market validated"
           else "✗ Market not validated" ].
Proof.
  unfold _validate_gate_p2, py_and, fact. run_M.
  destruct (truthy (default VNone (ctx !! "business_model_sound")));
    cbv beta iota; intros [= <-]; by split.
Qed.

Lemma gate_p4_returns ctx r :
  result_of _validate_gate_p4 ctx = Returns r ->
  g_valid r = VBool (fact ctx "code_complete" && fact ctx "tests_passing" &&
                     fact ctx "deployment_ready") /\
  g_checks r =
    Some [ if fact ctx "code_complete" then "✓ Code complete" else "✗ Code incomplete";
           if fact ctx "tests_passing" then "✓ All tests passing" else "✗ Tests failing";
           if fact ctx "deployment_ready" then "✓ Deployment ready"
           else "✗ Deployment not ready" ].
Proof.
  unfold _validate_gate_p4, fact. cbn [all_get]. run_M.
  destruct (truthy (default VNone (ctx !! "code_complete"))); cbv beta iota;
    [|intros [= <-]; by split].
  destruct (truthy (default VNone (ctx !! "tests_passing"))); cbv beta iota;
    [|intros [= <-]; by split].
  destruct (truthy (default VNone (ctx !! "deployment_ready"))); cbv beta iota;
    intros [= <-]; by split.
Qed.

Lemma gate_p3_returns rt self ctx r :
  result_of (_validate_gate_p3 rt self) ctx = Returns r ->
  exists entry passed,
    entry_shape "✓ MIDAS: ROI " "✗ MIDAS: ROI " entry passed /\
    r = p3_result (p3_checks ctx entry).
Proof.
  unfold result_of. rewrite gate_p3_run. cbn [fst].
  destruct (p3_entry rt self ctx) as [entry|e] eqn:Hentry; [|discriminate].
  intros [= <-]. destruct (roi_entry_shape _ _ _ _ _ _ _ _ Hentry) as [passed Hshape].
  by exists entry, passed.
Qed.

Lemma gate_p5_returns rt self ctx r :
  result_of (_validate_gate_p5 rt self) ctx = Returns r ->
  exists entry passed,
    entry_shape "✓ Actual ROI: " "✗ Actual ROI: " entry passed /\
    r = p5_result (p5_checks ctx entry).
Proof.
  unfold result_of. rewrite gate_p5_run. cbn [fst].
  destruct (p5_entry rt self ctx) as [entry|e] eqn:Hentry; [|discriminate].
  intros [= <-]. destruct (roi_entry_shape _ _ _ _ _ _ _ _ Hentry) as [passed Hshape].
  by exists entry, passed.
Qed.

(** X6: for each of the five gates the truth value of [valid] is the
    conjunction of the outcomes recorded in [checks]; for P2→P3, P3→P4
    and P4→P5 [valid] is that boolean itself. *)
Lemma gate_valid_truth_value rt self phase ctx r :
  in_strs phase ["p1"; "p2"; "p3"; "p4"; "p5"] = true ->
  result_of (validate_phase_gate rt self phase) ctx = Returns r ->
  exists checks,
    g_checks r = Some checks /\
    truthy (g_valid r) = forallb check_passed checks /\
    (in_strs phase ["p3"; "p4"; "p5"] = true ->
     g_valid r = VBool (forallb check_passed checks)).
Proof.
  intros (s & -> & Hin)%in_strs_inv.
  destruct (phase_gate_known rt self) as (H1 & H2 & H3 & H4 & H5).
  cbn [In] in Hin. destruct Hin as [<-|[<-|[<-|[<-|[<-|[]]]]]].
  - rewrite H1. intros (up & _ & -> & ->)%gate_p1_returns.
    eexists. split; [reflexivity|]. split; [|discriminate].
    unfold py_and, fact, check_passed. cbn [forallb].
    destruct (truthy (default VNone (ctx !! "research_complete"))) eqn:Hrc;
      [|by rewrite Hrc].
    destruct (in_strs _ _); repeat rewrite append_cons; reflexivity.
  - rewrite H2. intros [-> ->]%gate_p2_returns.
    eexists. split; [reflexivity|]. split; [|discriminate].
    unfold py_and, fact.
    destruct (truthy (default VNone (ctx !! "business_model_sound"))) eqn:Hb;
      [|by rewrite Hb].
    by destruct (truthy (default VNone (ctx !! "market_validated"))).
  - rewrite H3. intros (entry & passed & Hshape & ->)%gate_p3_returns.
    destruct (p3_marks ctx entry passed Hshape) as (_ & Hpassed & _).
    eexists. split; [reflexivity|]. cbn [p3_result g_valid truthy].
    by rewrite Hpassed.
  - rewrite H4. intros [-> ->]%gate_p4_returns.
    eexists. split; [reflexivity|]. cbn [truthy].
    assert (forall a b c : bool,
              a && b && c =
              forallb check_passed
                [ if a then "✓ Code complete" else "✗ Code incomplete";
                  if b then "✓ All tests passing" else "✗ Tests failing";
                  if c then "✓ Deployment ready" else "✗ Deployment not ready" ])
      as <- by (by intros [] [] []).
    by split.
  - rewrite H5. intros (entry & passed & Hshape & ->)%gate_p5_returns.
    destruct (p5_marks ctx entry passed Hshape) as (_ & Hpassed & _).
    eexists. split; [reflexivity|]. cbn [p5_result g_valid truthy].
    by rewrite Hpassed.
Qed.

(** C2 does not hold of the code: on the empty context the P0→P1 gate
    records two failed checks, whose conjunction is the boolean False,
    and returns [None] as [valid], the value of
    [context.get("research_complete") and ...]. *)
Theorem gate_p1_valid_is_none :
  exists r checks,
    result_of (validate_phase_gate no_engine offline (VStr "p1")) ∅ = Returns r /\
    g_checks r = Some checks /\
    checks = ["✗ Research incomplete"; "✗ Tier T4 (no-go)"] /\
    forallb check_passed checks = false /\
    g_valid r = VNone /\
    g_valid r <> VBool (forallb check_passed checks).
Proof.
  eexists _, _. split; [by vm_compute|]. split; [reflexivity|]. split; [reflexivity|].
  split; [reflexivity|]. split; [reflexivity|]. discriminate.
Qed.

(** ** The context is only read *)

Lemma readonly_ret {A} (a : A) : readonly (mret a).
Proof. intros c. reflexivity. Qed.

Lemma readonly_lift {A} (o : outcome A) : readonly (lift o).
Proof. intros c. reflexivity. Qed.

Lemma readonly_dict_get key : readonly (dict_get key).
Proof. intros c. reflexivity. Qed.

Lemma readonly_dict_get_default key d : readonly (dict_get_default key d).
Proof. intros c. reflexivity. Qed.

Lemma readonly_dict_index key : readonly (dict_index key).
Proof. intros c. reflexivity. Qed.

Lemma readonly_dict_contains key : readonly (dict_contains key).
Proof. intros c. reflexivity. Qed.

Lemma readonly_bind {A B} (m : M A) (f : A -> M B) :
  readonly m -> (forall a, readonly (f a)) -> readonly (m ≫= f).
Proof.
  intros Hm Hf c. specialize (Hm c). unfold context_after in *.
  unfold mbind, M_bind. destruct (m c) as [[a|e] c']; cbn [snd] in *; subst c'.
  - apply Hf.
  - reflexivity.
Qed.

Ltac readonly_steps :=
  repeat first
    [ apply readonly_ret
    | apply readonly_lift
    | apply readonly_dict_get
    | apply readonly_dict_get_default
    | apply readonly_dict_index
    | apply readonly_dict_contains
    | apply readonly_bind; [|intros ?]
    | match goal with
      | |- readonly (if ?b then _ else _) => destruct b
      | |- readonly (match ?x with _ => _ end) => destruct x
      end ].

Lemma readonly_all_get keys : readonly (all_get keys).
Proof. induction keys as [|key rest IH]; cbn [all_get]; readonly_steps. exact IH. Qed.

Lemma readonly_gate_p1 : readonly _validate_gate_p1.
Proof. unfold _validate_gate_p1. cbv zeta. readonly_steps. Qed.

Lemma readonly_gate_p2 : readonly _validate_gate_p2.
Proof. unfold _validate_gate_p2. cbv zeta. readonly_steps. Qed.

Lemma readonly_gate_p3 rt self : readonly (_validate_gate_p3 rt self).
Proof.
  unfold _validate_gate_p3. cbv zeta.
  readonly_steps.
Qed.

Lemma readonly_gate_p4 : readonly _validate_gate_p4.
Proof.
  unfold _validate_gate_p4. cbv zeta.
  readonly_steps; apply readonly_all_get.
Qed.

Lemma readonly_gate_p5 rt self : readonly (_validate_gate_p5 rt self).
Proof.
  unfold _validate_gate_p5. cbv zeta.
  readonly_steps.
Qed.

Lemma readonly_phase_gate rt self phase : readonly (validate_phase_gate rt self phase).
Proof.
  unfold validate_phase_gate.
  destruct (negb (hashable phase)); [apply readonly_lift|].
  unfold get_validator, gate_validators. cbn [List.find fst].
  destruct (eq_str phase "p1"); [apply readonly_gate_p1|].
  destruct (eq_str phase "p2"); [apply readonly_gate_p2|].
  destruct (eq_str phase "p3"); [apply readonly_gate_p3|].
  destruct (eq_str phase "p4"); [apply readonly_gate_p4|].
  destruct (eq_str phase "p5"); [apply readonly_gate_p5|].
  apply readonly_ret.
Qed.

Lemma readonly_report rt self : readonly (generate_validation_report rt self).
Proof.
  unfold generate_validation_report. cbv zeta.
  readonly_steps; apply readonly_phase_gate.
Qed.

(** C9: no validation operation changes the caller's context: for every
    context, the context after a phase-gate validation or a report
    generation is the context before it, whether the call returns or
    raises; the metric evaluators and the technology audit are given
    values taken from the context and never the mapping itself. *)
Theorem context_never_mutated (rt : Runtime) (self : PrologValidator) (ctx : context) :
  (forall phase, context_after (validate_phase_gate rt self phase) ctx = ctx) /\
  context_after (generate_validation_report rt self) ctx = ctx /\
  (forall m key1 key2,
     context_after
       (a ← dict_index key1; b ← dict_index key2; lift (evaluate m rt self a b)) ctx
     = ctx) /\
  (forall key,
     context_after (stack ← dict_index key; lift (validate_tech_stack stack)) ctx = ctx).
Proof.
  split; [intros phase; apply readonly_phase_gate|].
  split; [apply readonly_report|].
  split.
  - intros m key1 key2. revert ctx.
    change (readonly (a ← dict_index key1; b ← dict_index key2;
                      lift (evaluate m rt self a b))).
    readonly_steps.
  - intros key. revert ctx.
    change (readonly (stack ← dict_index key; lift (validate_tech_stack stack))).
    readonly_steps.
Qed.

(** ** Technology audit *)

Lemma audit_all_names names :
  audit_all (VStr <$> names) = Returns (audit_one <$> names).
Proof.
  induction names as [|name rest IH]; [reflexivity|].
  cbn [fmap list_fmap audit_all audit_value mbind outcome_bind] in *.
  by rewrite IH.
Qed.

Lemma simpler_alternative_given name :
  s_valid (_check_simpler_alternative name) = false ->
  exists alt, s_alternative (_check_simpler_alternative name) = Some alt.
Proof.
  unfold _check_simpler_alternative.
  destruct (existsb _ simple_choices); [discriminate|].
  destruct (List.find _ alternatives) as [[complex_tech alt]|]; [|discriminate].
  intros _. by exists alt.
Qed.

Lemma simpler_no_alternative name :
  s_valid (_check_simpler_alternative name) = true ->
  s_alternative (_check_simpler_alternative name) = None.
Proof.
  unfold _check_simpler_alternative.
  destruct (existsb _ simple_choices); [reflexivity|].
  by destruct (List.find _ alternatives) as [[complex_tech alt]|].
Qed.

Lemma audit_one_consistent name : record_consistent (audit_one name).
Proof.
  unfold record_consistent, audit_one.
  cbn [tech simpler_checked ai_friendly deploy_simple recommendation warning].
  split; [reflexivity|]. split; [reflexivity|]. split; [reflexivity|].
  destruct (s_valid (_check_simpler_alternative name)) eqn:Hs;
    cbn [negb andb].
  - split.
    { destruct (_check_ai_friendly name), (_check_deploy_simple name);
        cbn [andb]; split; (reflexivity || discriminate). }
    split.
    { destruct (_check_ai_friendly name), (_check_deploy_simple name); cbn [andb]; auto. }
    split; [|done].
    split; [discriminate|]. by intros (alt & [=] & _).
  - split; [split; discriminate|]. split; [by right|].
    destruct (simpler_alternative_given name Hs) as [alt Halt].
    split.
    + split; [|reflexivity]. intros _. by exists alt.
    + rewrite Halt. split; discriminate.
Qed.

(** C7: for every technology name in the input list the recommendation
    is approved iff all three policies pass and reconsider otherwise,
    with the suggested simpler alternative as warning exactly when the
    complexity-avoidance policy fails; the aggregate valid is true iff
    every technology is approved; and ["postgres", "react",
    "kubernetes"] yields one approved (postgres) and two reconsider,
    react failing ai_friendly and kubernetes failing deploy_simple. *)
Theorem tech_audit_recommendations (names : list string) :
  (exists audit,
     validate_tech_stack (VList (VStr <$> names)) = Returns audit /\
     map tech (tech_choices audit) = names /\
     Forall record_consistent (tech_choices audit) /\
     (t_valid audit = true <->
      Forall (fun r => recommendation r = "✓ Approved") (tech_choices audit))) /\
  validate_tech_stack (VList [VStr "postgres"; VStr "react"; VStr "kubernetes"]) =
  Returns
    {| t_valid := false;
       tech_choices :=
         [ {| tech := "postgres"; simpler_checked := true; ai_friendly := true;
              deploy_simple := true; recommendation := "✓ Approved";
              warning := None |};
           {| tech := "react"; simpler_checked := false; ai_friendly := false;
              deploy_simple := true; recommendation := "⚠ Reconsider";
              warning := Some "Consider HTMX + Alpine.js for simpler SSR" |};
           {| tech := "kubernetes"; simpler_checked := false; ai_friendly := true;
              deploy_simple := false; recommendation := "⚠ Reconsider";
              warning := Some "Consider Fly.io or Heroku unless 10K+ users" |} ];
       overall := "Stack needs review" |}.
Proof.
  split; [|by vm_compute].
  unfold validate_tech_stack. cbn [py_iter mbind outcome_bind].
  rewrite audit_all_names. cbn [mbind outcome_bind].
  eexists. split; [reflexivity|]. cbn [tech_choices t_valid].
  split. { rewrite map_map. cbn [audit_one tech]. apply map_id. }
  split. { apply Forall_fmap, Forall_true. intros name. apply audit_one_consistent. }
  rewrite forallb_forall, Forall_forall. unfold approved.
  split; intros H r Hr.
  - apply String.eqb_eq, H. by apply list_elem_of_In.
  - apply String.eqb_eq, H. by apply list_elem_of_In.
Qed.

(** * Further properties of the validator *)

(** ** Construction *)

(** X1: the availability flag is true exactly when [swipl --version] exits
    with status 0; a missing binary and a failing probe give a validator
    with the flag false; every other exception leaves the constructor.
    The rule file is the path given, and the default path when none or
    an empty one is given. *)
Theorem construction_probe (rt : Runtime) (file : option string) :
  (forall self, __init__ rt file = Returns self ->
     (prolog_available self = true <-> swipl_version rt = Returns 0%Z) /\
     (forall path, file = Some path -> path <> EmptyString -> prolog_file self = path) /\
     (file = None \/ file = Some EmptyString -> prolog_file self = default_prolog_file)) /\
  (forall e, __init__ rt file = Raises e <->
     swipl_version rt = Raises e /\ e <> CalledProcessError /\ e <> FileNotFoundError).
Proof.
  assert (Hfile : forall available self,
            self = {| prolog_file := match file with
                                     | Some (String c path) => String c path
                                     | Some EmptyString | None => default_prolog_file
                                     end;
                      prolog_available := available |} ->
            (forall path, file = Some path -> path <> EmptyString ->
               prolog_file self = path) /\
            (file = None \/ file = Some EmptyString ->
             prolog_file self = default_prolog_file)).
  { intros available self ->. cbn [prolog_file]. split.
    - intros path -> Hpath. by destruct path.
    - by intros [-> | ->]. }
  unfold __init__, _check_prolog_available.
  destruct (swipl_version rt) as [rc|e0]; cbn [mbind outcome_bind try_except].
  - destruct (rc =? 0)%Z eqn:Hrc; cbn [try_except mbind outcome_bind mret outcome_ret].
    + apply Z.eqb_eq in Hrc as ->. split.
      * intros self [= <-]. split; [by split|]. by eapply Hfile.
      * intros e. split; [discriminate|]. by intros [[=] _].
    + split.
      * intros self [= <-]. split; [|by eapply Hfile]. cbn [prolog_available].
        split; [discriminate|]. intros [= ->]. discriminate.
      * intros e. split; [discriminate|]. by intros [[=] _].
  - destruct e0; cbn [mbind outcome_bind mret outcome_ret];
      (split; [intros self Hs|intros e; split; [intros He|intros (He & Hc & Hf)]]);
      try discriminate;
      try (injection Hs as <-;
           split; [split; [discriminate|intros [=]]|by eapply Hfile]);
      try (injection He as <-;
           first [congruence|split; [reflexivity|split; discriminate]]).
Qed.

Lemma construction_probe_witness :
  (prolog_available offline = true <-> swipl_version no_engine = Returns 0%Z) /\
  prolog_file offline = default_prolog_file.
Proof.
  destruct (proj1 (construction_probe no_engine (Some EmptyString)) offline eq_refl)
    as (Hflag & _ & Hdefault).
  split; [exact Hflag|]. apply Hdefault. by right.
Defined.

(** ** The adapter *)

(** X2: a query succeeds exactly when the engine was available at
    construction, the process ended within 5 time units and its exit
    status was 0; in every other case the answer is [None]. *)
Theorem query_succeeds_iff (rt : Runtime) (self : PrologValidator) (query : string) :
  (_query_prolog rt self query = Returns (Some {| success := true |}) <->
   prolog_available self = true /\
   exists elapsed,
     swipl_goal rt query (prolog_file self) = Exited elapsed 0 /\ (elapsed <= 5)%Q) /\
  (_query_prolog rt self query = Returns (Some {| success := true |}) \/
   _query_prolog rt self query = Returns None).
Proof.
  rewrite _query_prolog_confirms. unfold confirms.
  destruct (prolog_available self); cbn [andb].
  2: { split; [|by right]. split; [discriminate|]. by intros [[=] _]. }
  destruct (swipl_goal rt query (prolog_file self)) as [elapsed rc| |e].
  - destruct (Qle_bool elapsed 5) eqn:Hle; cbn [andb].
    + destruct (rc =? 0)%Z eqn:Hrc.
      * apply Z.eqb_eq in Hrc as ->. apply Qle_bool_iff in Hle.
        split; [|by left]. split; [|done]. intros _. split; [done|]. by exists elapsed.
      * split; [|by right]. split; [discriminate|].
        intros (_ & elapsed' & [= -> ->] & _). discriminate.
    + split; [|by right]. split; [discriminate|].
      intros (_ & elapsed' & [= -> ->] & Hle'). apply Qle_bool_iff in Hle'. congruence.
  - split; [|by right]. split; [discriminate|]. by intros (_ & elapsed' & [=] & _).
  - split; [|by right]. split; [discriminate|]. by intros (_ & elapsed' & [=] & _).
Qed.

(** ** The metrics *)



(** X4: every result a metric returns is consistent in itself: one
    validated by python has its [valid] equal to the comparison of its
    own reading with its own threshold and a reason that says which way
    it went; one validated by prolog is valid and has no reason; one
    without [validated_by] is the rejection, with neither reading nor
    threshold. *)
Theorem metric_result_consistent (m : metric) (rt : Runtime) (self : PrologValidator)
    (a b : value) (res : MetricResult) :
  evaluate m rt self a b = Returns res ->
  match m_validated_by res with
  | None => res = rejected m
  | Some by_whom =>
      exists shown, m_value res = Some shown /\
        m_threshold res = Some (threshold m) /\
        ((by_whom = "python" /\ m_valid res = float_ge shown (threshold m) /\
          is_Some (m_reason res)) \/
         (by_whom = "prolog" /\ m_valid res = true /\ m_reason res = None))
  end.
Proof.
  intros [(d & _ & _ & ->)|(d & q & _ & _ & _ & ->)]%evaluate_returns; [reflexivity|].
  destruct (confirms rt self (query_of m rt a b)).
  - exists q. cbn. split; [reflexivity|]. split; [reflexivity|]. by right.
  - destruct m; (eexists; split; [reflexivity|]);
      (split; [reflexivity|]); left; (split; [reflexivity|]);
      (split; [reflexivity|]); by eexists.
Qed.

Lemma metric_result_consistent_witness :
  exists shown, m_value (fallback_of LtvCac float_2_25) = Some shown /\
    m_threshold (fallback_of LtvCac float_2_25) = Some (threshold LtvCac) /\
    (("python" = "python" /\
      m_valid (fallback_of LtvCac float_2_25) = float_ge shown (threshold LtvCac) /\
      is_Some (m_reason (fallback_of LtvCac float_2_25))) \/
     ("python" = "prolog" /\ m_valid (fallback_of LtvCac float_2_25) = true /\
      m_reason (fallback_of LtvCac float_2_25) = None)).
Proof.
  exact (metric_result_consistent LtvCac no_engine offline
           (VNum (Int 900)) (VNum (Int 400))
           (fallback_of LtvCac float_2_25) eq_refl).
Defined.

(** ** The gates *)

Lemma gate_valid_truth_value_witness :
  exists r checks,
    result_of (validate_phase_gate no_engine offline (VStr "p4")) release_context
      = Returns r /\
    g_checks r = Some checks /\
    truthy (g_valid r) = forallb check_passed checks.
Proof.
  destruct (gate_valid_truth_value no_engine offline (VStr "p4") release_context _
              eq_refl eq_refl) as (checks & Hchecks & Htruth & _).
  eexists _, checks. split; [reflexivity|]. by split.
Defined.

(** X7: the decision of a gate follows its verdict: it reads PROCEED when
    [valid] is truthy and HALT when it is not. *)
Theorem decision_follows_valid (rt : Runtime) (self : PrologValidator)
    (phase : value) (ctx : context) (r : GateResult) :
  in_strs phase ["p1"; "p2"; "p3"; "p4"; "p5"] = true ->
  result_of (validate_phase_gate rt self phase) ctx = Returns r ->
  exists decision,
    g_decision r = Some decision /\
    is_prefix "PROCEED" decision = truthy (g_valid r) /\
    is_prefix "HALT" decision = negb (truthy (g_valid r)).
Proof.
  intros (s & -> & Hin)%in_strs_inv.
  destruct (phase_gate_known rt self) as (H1 & H2 & H3 & H4 & H5).
  cbn [In] in Hin. destruct Hin as [<-|[<-|[<-|[<-|[<-|[]]]]]].
  - rewrite H1. unfold _validate_gate_p1. run_M.
    destruct (py_upper _) as [tier_upper|e]; [|discriminate].
    intros [= <-]. cbn [g_decision g_valid]. eexists. split; [reflexivity|].
    by destruct (truthy (py_and _ _)).
  - rewrite H2. unfold _validate_gate_p2. run_M.
    destruct (truthy (default VNone (ctx !! "business_model_sound"))) eqn:Hb;
      cbv beta iota; intros [= <-]; cbn [g_decision g_valid];
      (eexists; split; [reflexivity|]).
    + by destruct (truthy (default VNone (ctx !! "market_validated"))).
    + by rewrite Hb.
  - rewrite H3. intros (entry & passed & _ & ->)%gate_p3_returns.
    cbn [p3_result g_decision g_valid truthy]. eexists. split; [reflexivity|].
    by destruct (all_marked _).
  - rewrite H4. unfold _validate_gate_p4. cbn [all_get]. run_M.
    destruct (truthy (default VNone (ctx !! "code_complete"))); cbv beta iota;
      [|intros [= <-]; by eexists].
    destruct (truthy (default VNone (ctx !! "tests_passing"))); cbv beta iota;
      [|intros [= <-]; by eexists].
    destruct (truthy (default VNone (ctx !! "deployment_ready"))); cbv beta iota;
      intros [= <-]; by eexists.
  - rewrite H5. intros (entry & passed & _ & ->)%gate_p5_returns.
    cbn [p5_result g_decision g_valid truthy]. eexists. split; [reflexivity|].
    by destruct (all_marked _).
Qed.

Lemma decision_follows_valid_witness :
  exists decision,
    Some "HALT" = Some decision /\
    is_prefix "PROCEED" decision = truthy (VBool false) /\
    is_prefix "HALT" decision = negb (truthy (VBool false)).
Proof.
  exact (decision_follows_valid no_engine offline (VStr "p4") release_context
           {| g_valid := VBool false;
              g_gate := Some "P3 → P4";
              g_checks := Some [ "✓ Code complete"; "✓ All tests passing";
                                 "✗ Deployment not ready" ];
              g_decision := Some "HALT";
              g_reason := None |} eq_refl eq_refl).
Defined.

(** X8: The P1→P2 and P3→P4 gates return for every context.  The P0→P1
    gate returns exactly when the tier fact is absent or a string; with
    any other tier it raises [AttributeError], and nothing else. *)
Theorem plain_gates_failures (rt : Runtime) (self : PrologValidator) (ctx : context) :
  (exists r, result_of (validate_phase_gate rt self (VStr "p2")) ctx = Returns r) /\
  (exists r, result_of (validate_phase_gate rt self (VStr "p4")) ctx = Returns r) /\
  ((exists r, result_of (validate_phase_gate rt self (VStr "p1")) ctx = Returns r) <->
   ctx !! "tier" = None \/ exists s, ctx !! "tier" = Some (VStr s)) /\
  (forall e, result_of (validate_phase_gate rt self (VStr "p1")) ctx = Raises e ->
     e = AttributeError).
Proof.
  destruct (phase_gate_known rt self) as (-> & -> & _ & -> & _).
  split; [|split].
  - unfold _validate_gate_p2. run_M.
    destruct (truthy (default VNone (ctx !! "business_model_sound")));
      cbv beta iota; by eexists.
  - unfold _validate_gate_p4. cbn [all_get]. run_M.
    destruct (truthy (default VNone (ctx !! "code_complete"))); cbv beta iota;
      [|by eexists].
    destruct (truthy (default VNone (ctx !! "tests_passing"))); cbv beta iota;
      [|by eexists].
    destruct (truthy (default VNone (ctx !! "deployment_ready"))); cbv beta iota;
      by eexists.
  - unfold _validate_gate_p1. run_M.
    destruct (ctx !! "tier") as [tier|]; cbn [default from_option id].
    + destruct tier as [|flag|q|s|l]; cbn [py_upper].
      4: { split; [split; [intros _; right; by exists s|intros _; by eexists]|].
           discriminate. }
      all: split; [split; [by intros [r [=]]|by intros [[=]|[s [=]]]]|].
      all: by intros e [= <-].
    + cbn [py_upper]. split; [split; [intros _; by left|intros _; by eexists]|].
      discriminate.
Qed.

Lemma plain_gates_failures_witness : AttributeError = AttributeError.
Proof.
  exact (proj2 (proj2 (proj2 (plain_gates_failures no_engine offline
                                {[ "tier" := VNum (Int 1) ]})))
           AttributeError eq_refl).
Defined.







(** *** Each gate reads its own facts only *)

Lemma gate_agree_p3 rt self (ctx ctx' : context) :
  (forall k, In k (gate_keys "p3") -> ctx !! k = ctx' !! k) ->
  result_of (_validate_gate_p3 rt self) ctx = result_of (_validate_gate_p3 rt self) ctx'.
Proof.
  intros H. unfold result_of. rewrite !gate_p3_run. cbn [fst].
  unfold p3_entry, roi_entry, p3_checks, fact.
  rewrite (H "business_model_sound"), (H "unvalidated_claims"), (H "revenue"),
    (H "costs"), (H "timeline_realistic"), (H "risks_mitigated"),
    (H "tech_stack_validated") by (vm_compute; tauto).
  reflexivity.
Qed.

Lemma gate_agree_p5 rt self (ctx ctx' : context) :
  (forall k, In k (gate_keys "p5") -> ctx !! k = ctx' !! k) ->
  result_of (_validate_gate_p5 rt self) ctx = result_of (_validate_gate_p5 rt self) ctx'.
Proof.
  intros H. unfold result_of. rewrite !gate_p5_run. cbn [fst].
  unfold p5_entry, roi_entry, p5_checks, fact.
  rewrite (H "validation_complete"), (H "actual_revenue"), (H "actual_costs"),
    (H "sustainability_proven") by (vm_compute; tauto).
  reflexivity.
Qed.

(** X10: the result of a gate depends on the context only through the facts
    of that gate: two contexts that agree on them get the same result,
    whatever else they hold; an unknown phase reads nothing. *)
Theorem gate_reads_its_facts (rt : Runtime) (self : PrologValidator)
    (phase : string) (ctx ctx' : context) :
  (forall k, In k (gate_keys phase) -> ctx !! k = ctx' !! k) ->
  result_of (validate_phase_gate rt self (VStr phase)) ctx =
  result_of (validate_phase_gate rt self (VStr phase)) ctx'.
Proof.
  intros H.
  destruct (phase_gate_known rt self) as (H1 & H2 & H3 & H4 & H5).
  destruct (String.eqb_spec phase "p1") as [->|N1].
  { rewrite H1. unfold _validate_gate_p1. run_M.
    rewrite (H "research_complete"), (H "tier") by (vm_compute; tauto).
    by destruct (py_upper _). }
  destruct (String.eqb_spec phase "p2") as [->|N2].
  { rewrite H2. unfold _validate_gate_p2. run_M.
    rewrite (H "business_model_sound"), (H "market_validated") by (vm_compute; tauto).
    destruct (truthy (default VNone (ctx' !! "business_model_sound")));
      cbv beta iota; by rewrite ?(H "market_validated") by (vm_compute; tauto). }
  destruct (String.eqb_spec phase "p3") as [->|N3].
  { rewrite H3. by apply gate_agree_p3. }
  destruct (String.eqb_spec phase "p4") as [->|N4].
  { rewrite H4. unfold _validate_gate_p4. cbn [all_get]. run_M.
    rewrite (H "code_complete"), (H "tests_passing"), (H "deployment_ready")
      by (vm_compute; tauto).
    destruct (truthy (default VNone (ctx' !! "code_complete"))); cbv beta iota;
      [|reflexivity].
    rewrite ?(H "tests_passing") by (vm_compute; tauto).
    destruct (truthy (default VNone (ctx' !! "tests_passing"))); cbv beta iota;
      [|reflexivity].
    rewrite ?(H "deployment_ready") by (vm_compute; tauto).
    by destruct (truthy (default VNone (ctx' !! "deployment_ready"))). }
  destruct (String.eqb_spec phase "p5") as [->|N5].
  { rewrite H5. by apply gate_agree_p5. }
  unfold validate_phase_gate, get_validator, gate_validators.
  cbn [hashable negb List.find fst eq_str].
  apply String.eqb_neq in N1, N2, N3, N4, N5. by rewrite N1, N2, N3, N4, N5.
Qed.

Lemma gate_reads_its_facts_witness :
  result_of (validate_phase_gate no_engine offline (VStr "p4")) release_context =
  result_of (validate_phase_gate no_engine offline (VStr "p4"))
    (<[ "revenue" := VNum (Int 0) ]> release_context).
Proof.
  apply (gate_reads_its_facts no_engine offline "p4").
  intros k Hk. symmetry. apply lookup_insert_ne.
  vm_compute in Hk. intros <-. by destruct Hk as [?|[?|[?|[]]]].
Defined.

(** ** Substrings *)

Lemma append_assoc a b c : (a +:+ b) +:+ c = a +:+ (b +:+ c).
Proof.
  induction a as [|x a IH]; [reflexivity|]. rewrite !append_cons. by rewrite IH.
Qed.

Lemma is_prefix_spec p s : is_prefix p s = true <-> exists post, s = p +:+ post.
Proof.
  revert s. induction p as [|a p IH]; intros s.
  - split; [intros _; by exists s|done].
  - destruct s as [|b s]; cbn [is_prefix].
    + split; [discriminate|]. by intros [post [=]].
    + rewrite andb_true_iff, Ascii.eqb_eq, IH. split.
      * intros [-> [post ->]]. by exists post.
      * intros [post [= -> ->]]. split; [reflexivity|]. by exists post.
Qed.

Lemma contains_spec needle hay :
  contains needle hay = true <-> exists pre post, hay = pre +:+ needle +:+ post.
Proof.
  induction hay as [|c hay IH]; cbn [contains]; rewrite orb_true_iff, is_prefix_spec.
  - split.
    + intros [[post ->]|[=]]. by exists EmptyString, post.
    + intros ([|x pre] & post & H); [|discriminate]. left. by exists post.
  - rewrite IH. split.
    + intros [[post ->]|(pre & post & ->)];
        [by exists EmptyString, post|by exists (String c pre), post].
    + intros ([|x pre] & post & H).
      * left. by exists post.
      * right. injection H as <- ->. by exists pre, post.
Qed.

(** A substring of a substring is a substring. *)
Lemma contains_trans inner middle outer :
  contains inner middle = true -> contains middle outer = true ->
  contains inner outer = true.
Proof.
  rewrite !contains_spec. intros (p1 & q1 & ->) (p2 & q2 & ->).
  exists (p2 +:+ p1), (q1 +:+ q2). by rewrite !append_assoc.
Qed.

(** ** The technology audit *)

Lemma simple_choice_inv s :
  existsb (fun simple => contains simple s) simple_choices = false ->
  contains "go" s = false.
Proof.
  cbn [existsb simple_choices]. intros H.
  repeat (apply orb_false_elim in H as [? H]); assumption.
Qed.

(** X11: the alternative for MongoDB is never suggested: a name that holds
    "mongodb" holds "go", which is on the list of simple choices, so it
    passes the complexity-avoidance policy; the warning of a record is
    always one of the other four alternatives. *)
Theorem mongodb_alternative_unreachable (name : string) :
  (contains "mongodb" (lower name) = true ->
   _check_simpler_alternative name = {| s_valid := true; s_alternative := None |}) /\
  (forall alt, warning (audit_one name) = Some alt -> In alt reachable_alternatives).
Proof.
  split.
  - intros Hmongo. unfold _check_simpler_alternative.
    destruct (existsb _ simple_choices) eqn:Hsimple; [reflexivity|].
    apply simple_choice_inv in Hsimple.
    by rewrite (contains_trans "go" "mongodb" (lower name) eq_refl Hmongo) in Hsimple.
  - intros alt. unfold audit_one, _check_simpler_alternative. cbn [warning].
    destruct (existsb _ simple_choices) eqn:Hsimple; cbn [s_valid negb]; [discriminate|].
    apply simple_choice_inv in Hsimple.
    cbn [List.find alternatives fst reachable_alternatives In].
    destruct (contains "react" (lower name)); cbn [s_valid s_alternative negb];
      [intros [= <-]; tauto|].
    destruct (contains "angular" (lower name)); cbn [s_valid s_alternative negb];
      [intros [= <-]; tauto|].
    destruct (contains "kubernetes" (lower name)); cbn [s_valid s_alternative negb];
      [intros [= <-]; tauto|].
    destruct (contains "microservices" (lower name)); cbn [s_valid s_alternative negb];
      [intros [= <-]; tauto|].
    destruct (contains "mongodb" (lower name)) eqn:Hmongo;
      cbn [s_valid s_alternative negb]; [|discriminate].
    by rewrite (contains_trans "go" "mongodb" (lower name) eq_refl Hmongo) in Hsimple.
Qed.

Lemma mongodb_alternative_unreachable_witness :
  _check_simpler_alternative "MongoDB Atlas" = {| s_valid := true; s_alternative := None |}.
Proof.
  exact (proj1 (mongodb_alternative_unreachable "MongoDB Atlas") eq_refl).
Defined.

Lemma audit_all_strings items :
  Forall (fun v => is_string v = true) items ->
  exists names, items = VStr <$> names /\ audit_all items = Returns (audit_one <$> names).
Proof.
  induction 1 as [|v items Hv _ (names & -> & IH)].
  - by exists [].
  - destruct v as [| | |name|]; try discriminate.
    exists (name :: names). split; [reflexivity|]. apply (audit_all_names (name :: names)).
Qed.

Lemma audit_all_raises items :
  Exists (fun v => is_string v = false) items -> audit_all items = Raises AttributeError.
Proof.
  induction 1 as [v items Hv|v items _ IH]; cbn [audit_all].
  - by destruct v.
  - destruct v; cbn [audit_value mbind outcome_bind]; try reflexivity. by rewrite IH.
Qed.

(** X12: the audit returns for a list exactly when every item is a string,
    with one record per item; a list holding anything else raises
    [AttributeError]; a value that cannot be iterated raises
    [TypeError]; the empty list is approved. *)
Theorem tech_audit_failures (items : list value) :
  ((exists audit, validate_tech_stack (VList items) = Returns audit) <->
   Forall (fun v => is_string v = true) items) /\
  (forall audit, validate_tech_stack (VList items) = Returns audit ->
     length (tech_choices audit) = length items) /\
  (forall e, validate_tech_stack (VList items) = Raises e -> e = AttributeError) /\
  validate_tech_stack (VList []) =
    Returns {| t_valid := true; tech_choices := []; overall := "Stack approved" |} /\
  validate_tech_stack VNone = Raises TypeError /\
  (forall flag, validate_tech_stack (VBool flag) = Raises TypeError) /\
  (forall n, validate_tech_stack (VNum n) = Raises TypeError).
Proof.
  unfold validate_tech_stack. cbn [py_iter mbind outcome_bind].
  assert (Hcases : Forall (fun v => is_string v = true) items \/
                   Exists (fun v => is_string v = false) items).
  { induction items as [|v items [IH|IH]]; [by left| |right; by constructor].
    destruct (is_string v) eqn:Hv; [left|right]; by constructor. }
  split; [|split; [|split]]; [| | |by repeat split].
  - split; [|intros (names & -> & ->)%audit_all_strings; by eexists].
    destruct Hcases as [Hall|Hex]; [done|].
    rewrite (audit_all_raises _ Hex). by intros [audit [=]].
  - destruct Hcases as [(names & -> & ->)%audit_all_strings|Hex].
    + intros audit [= <-]. cbn [tech_choices]. by rewrite !length_fmap.
    + by rewrite (audit_all_raises _ Hex).
  - destruct Hcases as [(names & -> & ->)%audit_all_strings|Hex].
    + discriminate.
    + rewrite (audit_all_raises _ Hex). by intros e [= <-].
Qed.

Lemma tech_audit_failures_witness :
  exists audit, validate_tech_stack (VList [VStr "flask"; VStr "vue"]) = Returns audit.
Proof.
  apply (proj1 (tech_audit_failures [VStr "flask"; VStr "vue"])).
  by repeat constructor.
Defined.

(** X13: auditing a list is auditing its parts: the records of two lists of
    names put together are the records of the first followed by those
    of the second, and the whole is valid exactly when both parts are. *)
Theorem tech_audit_of_append (names1 names2 : list string) :
  exists audit1 audit2 audit,
    validate_tech_stack (VList (VStr <$> names1)) = Returns audit1 /\
    validate_tech_stack (VList (VStr <$> names2)) = Returns audit2 /\
    validate_tech_stack (VList (VStr <$> (names1 ++ names2))) = Returns audit /\
    tech_choices audit = tech_choices audit1 ++ tech_choices audit2 /\
    t_valid audit = t_valid audit1 && t_valid audit2.
Proof.
  unfold validate_tech_stack. cbn [py_iter mbind outcome_bind].
  rewrite !audit_all_names. cbn [mbind outcome_bind].
  eexists _, _, _. split; [reflexivity|]. split; [reflexivity|]. split; [reflexivity|].
  cbn [tech_choices t_valid]. rewrite fmap_app. split; [reflexivity|].
  apply forallb_app.
Qed.

Lemma lower_upper_ascii c : lower_ascii (upper_ascii c) = lower_ascii c.
Proof. by destruct c as [[] [] [] [] [] [] [] []]. Qed.

Lemma lower_lower_ascii c : lower_ascii (lower_ascii c) = lower_ascii c.
Proof. by destruct c as [[] [] [] [] [] [] [] []]. Qed.

Lemma lower_upper s : lower (upper s) = lower s.
Proof.
  unfold lower, upper. induction s as [|c s IH]; [reflexivity|].
  cbn [map_string]. by rewrite lower_upper_ascii, IH.
Qed.

Lemma lower_lower s : lower (lower s) = lower s.
Proof.
  unfold lower. induction s as [|c s IH]; [reflexivity|].
  cbn [map_string]. by rewrite lower_lower_ascii, IH.
Qed.

(** X14: the three policies do not look at the case of ASCII letters: a name
    written in capitals or in small letters gets the policy results,
    the recommendation and the warning of the name as given. *)
Theorem audit_ignores_case (name spelled : string) :
  spelled = upper name \/ spelled = lower name ->
  simpler_checked (audit_one spelled) = simpler_checked (audit_one name) /\
  ai_friendly (audit_one spelled) = ai_friendly (audit_one name) /\
  deploy_simple (audit_one spelled) = deploy_simple (audit_one name) /\
  recommendation (audit_one spelled) = recommendation (audit_one name) /\
  warning (audit_one spelled) = warning (audit_one name).
Proof.
  intros Hspelled.
  assert (Hlower : lower spelled = lower name).
  { destruct Hspelled as [->| ->]; [apply lower_upper|apply lower_lower]. }
  unfold audit_one, _check_simpler_alternative, _check_ai_friendly, _check_deploy_simple.
  cbn [simpler_checked ai_friendly deploy_simple recommendation warning].
  by rewrite Hlower.
Qed.

Lemma audit_ignores_case_witness :
  simpler_checked (audit_one "KUBERNETES") = simpler_checked (audit_one "Kubernetes") /\
  ai_friendly (audit_one "KUBERNETES") = ai_friendly (audit_one "Kubernetes") /\
  deploy_simple (audit_one "KUBERNETES") = deploy_simple (audit_one "Kubernetes") /\
  recommendation (audit_one "KUBERNETES") = recommendation (audit_one "Kubernetes") /\
  warning (audit_one "KUBERNETES") = warning (audit_one "Kubernetes").
Proof.
  apply (audit_ignores_case "Kubernetes" "KUBERNETES"). by left.
Defined.

(** *** A string in place of a list *)

Lemma continuation_top_bit c : continuation c = true -> seven_bit c = false.
Proof. by destruct c as [[] [] [] [] [] [] [] []]. Qed.

Lemma lower_ascii_continuation c : continuation c = true -> lower_ascii c = c.
Proof. by destruct c as [[] [] [] [] [] [] [] []]. Qed.

Lemma eqb_ascii_continuation a c :
  seven_bit a = true -> continuation c = true -> Ascii.eqb a c = false.
Proof.
  intros Ha Hc. apply Ascii.eqb_neq. intros ->.
  rewrite (continuation_top_bit _ Hc) in Ha. discriminate.
Qed.

Lemma lower_all_continuation t : all_continuation t = true -> lower t = t.
Proof.
  unfold lower. induction t as [|c t IH]; [reflexivity|].
  cbn [all_continuation map_string]. intros [Hc Ht]%andb_true_iff.
  by rewrite (lower_ascii_continuation _ Hc), IH.
Qed.

Lemma lower_single_char s : single_char s = true -> single_char (lower s) = true.
Proof.
  destruct s as [|c t]; [discriminate|]. cbn [single_char]. intros Ht.
  change (lower (String c t)) with (String (lower_ascii c) (lower t)).
  by rewrite (lower_all_continuation _ Ht).
Qed.

Lemma contains_all_continuation w t :
  two_ascii w = true -> all_continuation t = true -> contains w t = false.
Proof.
  destruct w as [|a [|b w]]; try discriminate.
  cbn [two_ascii]. intros [Ha _]%andb_true_iff.
  induction t as [|c t IH]; [reflexivity|].
  cbn [all_continuation contains is_prefix]. intros [Hc Ht]%andb_true_iff.
  by rewrite (eqb_ascii_continuation _ _ Ha Hc), IH.
Qed.

(** No word of two or more ASCII letters is inside a single character. *)
Lemma contains_single_char w s :
  two_ascii w = true -> single_char s = true -> contains w s = false.
Proof.
  intros Hw Hs. destruct s as [|x t]; [discriminate|]. cbn [single_char] in Hs.
  cbn [contains]. rewrite (contains_all_continuation w t Hw Hs), orb_false_r.
  destruct w as [|a [|b w]]; try discriminate.
  cbn [two_ascii] in Hw. apply andb_true_iff in Hw as [_ Hb].
  destruct t as [|y t]; cbn [is_prefix]; [by rewrite andb_false_r|].
  cbn [all_continuation] in Hs. apply andb_true_iff in Hs as [Hy _].
  by rewrite (eqb_ascii_continuation _ _ Hb Hy), andb_false_r.
Qed.

Lemma characters_shape s :
  Forall (fun c => single_char c = true) (characters s) /\
  match s with
  | EmptyString => characters s = []
  | String c _ => exists t others, characters s = String c t :: others
  end.
Proof.
  induction s as [|c s [IHall IHhead]]; [by split|].
  cbn [characters]. destruct s as [|c' s'].
  - cbn [characters]. split; [by repeat constructor|by eexists _, _].
  - destruct IHhead as (t & others & Heq). rewrite Heq.
    rewrite Heq in IHall. apply Forall_cons in IHall as [Hfirst Hothers].
    destruct (continuation c') eqn:Hc'.
    + split; [|by eexists _, _]. constructor; [|assumption].
      cbn [single_char all_continuation] in *. by rewrite Hc', Hfirst.
    + split; [|by eexists _, _]. by repeat constructor.
Qed.

Lemma audit_single_char c :
  single_char c = true ->
  recommendation (audit_one c) = "✓ Approved" /\ warning (audit_one c) = None.
Proof.
  intros Hc%lower_single_char.
  unfold audit_one, _check_simpler_alternative, _check_ai_friendly, _check_deploy_simple.
  cbn [existsb simple_choices List.find alternatives fst ai_unfriendly complex_deploy].
  rewrite !(fun w H => contains_single_char w (lower c) H Hc) by reflexivity.
  by split.
Qed.

(** X15: given a string where a list of names is expected, the audit takes
    each character for a technology; no character holds a word of the
    three lists, so every character is approved and the stack is valid,
    whatever the string says. *)
Theorem bare_string_is_approved (s : string) :
  exists audit,
    validate_tech_stack (VStr s) = Returns audit /\
    map tech (tech_choices audit) = characters s /\
    Forall (fun r => recommendation r = "✓ Approved" /\ warning r = None)
      (tech_choices audit) /\
    t_valid audit = true.
Proof.
  unfold validate_tech_stack. cbn [py_iter mbind outcome_bind].
  rewrite audit_all_names. cbn [mbind outcome_bind].
  eexists. split; [reflexivity|]. cbn [tech_choices t_valid].
  destruct (characters_shape s) as [Hall _].
  split. { rewrite map_map. cbn [audit_one tech]. apply map_id. }
  assert (Happroved : Forall (fun r => recommendation r = "✓ Approved" /\ warning r = None)
                        (audit_one <$> characters s)).
  { apply Forall_fmap. eapply Forall_impl; [exact Hall|].
    intros c Hc. by apply audit_single_char. }
  split; [exact Happroved|].
  apply forallb_forall. intros r Hr. unfold approved. apply String.eqb_eq.
  rewrite Forall_forall in Happroved. apply Happroved. by apply list_elem_of_In.
Qed.
(** ** The report *)

Lemma run_readonly {A} (m : M A) c : readonly m -> m c = (result_of m c, c).
Proof.
  intros H. specialize (H c). unfold context_after, result_of in *.
  destruct (m c) as [o c']. cbn in *. by subst.
Qed.

Lemma result_bind {A B} (m : M A) (f : A -> M B) c :
  readonly m -> result_of (m ≫= f) c = (a ← result_of m c; result_of (f a) c).
Proof.
  intros H. unfold result_of at 1. unfold mbind at 1, M_bind.
  rewrite (run_readonly m c H). by destruct (result_of m c).
Qed.

Lemma result_ret {A} (a : A) c : result_of (mret a) c = Returns a.
Proof. reflexivity. Qed.

Lemma has_key_lookup (ctx : context) k :
  bool_decide (is_Some (ctx !! k)) = match ctx !! k with Some _ => true | None => false end.
Proof.
  destruct (ctx !! k).
  - apply bool_decide_eq_true_2. by eexists.
  - apply bool_decide_eq_false_2. by intros [? [=]].
Qed.

Lemma result_contains {B} k (f : bool -> M B) (c : context) :
  result_of (dict_contains k ≫= f) c =
  result_of (f (match c !! k with Some _ => true | None => false end)) c.
Proof.
  unfold result_of, mbind, M_bind, dict_contains. by rewrite has_key_lookup.
Qed.

Lemma result_index {B} k (f : value -> M B) (c : context) :
  result_of (dict_index k ≫= f) c =
  match c !! k with Some v => result_of (f v) c | None => Raises (KeyError k) end.
Proof.
  unfold result_of, mbind, M_bind, dict_index. by destruct (c !! k).
Qed.

Lemma result_lift {A B} (o : outcome A) (f : A -> M B) c :
  result_of (lift o ≫= f) c = (a ← o; result_of (f a) c).
Proof. by rewrite result_bind by apply readonly_lift. Qed.

Lemma result_ret_bind {A B} (a : A) (f : A -> M B) c :
  result_of (mret a ≫= f) c = result_of (f a) c.
Proof. by rewrite result_bind by apply readonly_ret. Qed.

Lemma result_if {A B} (b : bool) (m1 m2 : M A) (f : A -> M B) c :
  result_of ((if b then m1 else m2) ≫= f) c =
  if b then result_of (m1 ≫= f) c else result_of (m2 ≫= f) c.
Proof. by destruct b. Qed.

Lemma result_assoc {A B C} (m : M A) (g : A -> M B) (f : B -> M C) c :
  result_of ((m ≫= g) ≫= f) c = result_of (m ≫= (fun a => g a ≫= f)) c.
Proof.
  unfold result_of, mbind, M_bind. destruct (m c) as [[a|e] c']; reflexivity.
Qed.

Lemma result_gate {B} rt self phase (f : GateResult -> M B) c :
  result_of (validate_phase_gate rt self phase ≫= f) c =
  (r ← result_of (validate_phase_gate rt self phase) c; result_of (f r) c).
Proof. by rewrite result_bind by apply readonly_phase_gate. Qed.

Lemma outcome_bind_ext {A B} (f g : A -> outcome B) (o : outcome A) :
  (forall a, f a = g a) -> (o ≫= f) = (o ≫= g).
Proof. intros H. destruct o; [apply H|reflexivity]. Qed.

Ltac report_steps :=
  repeat first
    [ rewrite result_contains
    | rewrite result_index
    | rewrite result_lift
    | rewrite result_gate
    | rewrite result_ret_bind
    | rewrite result_if
    | rewrite result_assoc
    | rewrite result_ret ].

(** Reads one section of the report, whose continuation is abstract and
    described by [T]. *)
Ltac section_steps T :=
  repeat (report_steps; cbn [mbind outcome_bind]; rewrite ?T;
          match goal with
          | |- context [match ?c !! ?k with _ => _ end] => destruct (c !! k)
          | |- context [validate_roi ?a ?b ?c ?d] => destruct (validate_roi a b c d)
          | |- context [validate_ltv_cac ?a ?b ?c ?d] =>
              destruct (validate_ltv_cac a b c d)
          | |- context [result_of (validate_phase_gate ?a ?b ?c) ?d] =>
              destruct (result_of (validate_phase_gate a b c) d)
          | |- context [validate_tech_stack ?a] => destruct (validate_tech_stack a)
          | |- context [format_2f ?x] => destruct (format_2f x)
          | |- context [index ?k ?x] => destruct (index k x)
          end);
  repeat progress (report_steps; cbn [mbind outcome_bind]; rewrite ?T);
  try reflexivity;
  repeat (apply outcome_bind_ext; intros ?);
  repeat progress (cbn [app]; rewrite <- ?app_assoc); try reflexivity.

Lemma report_run rt self ctx :
  result_of (generate_validation_report rt self) ctx =
  (s1 ← roi_section rt self ctx;
   s2 ← ltv_cac_section rt self ctx;
   s3 ← phase_section rt self ctx;
   s4 ← tech_section ctx;
   Returns (join newline (report_title :: s1 ++ s2 ++ s3 ++ s4))).
Proof.
  unfold generate_validation_report. cbv zeta.
  match goal with
  | |- result_of (mbind (fun a => mbind (fun b => mbind ?k (@?S a b)) (@?T a)) ?m) _ = _ =>
      set (K1 := k)
  end.
  assert (T2 : forall report,
             result_of (K1 report) ctx =
             (s2 ← ltv_cac_section rt self ctx;
              s3 ← phase_section rt self ctx;
              s4 ← tech_section ctx;
              Returns (join newline (report ++ s2 ++ s3 ++ s4)))).
  { intros report. subst K1. cbv beta.
    match goal with
    | |- result_of (mbind (fun a => mbind (fun b => mbind ?k (@?S a b)) (@?T a)) ?m) _ = _ =>
        set (K2 := k)
    end.
    assert (T3 : forall report,
               result_of (K2 report) ctx =
               (s3 ← phase_section rt self ctx;
                s4 ← tech_section ctx;
                Returns (join newline (report ++ s3 ++ s4)))).
    { clear report. intros report. subst K2. cbv beta.
      match goal with
      | |- result_of (mbind (fun a => mbind ?k (@?S a)) ?m) _ = _ => set (K3 := k)
      end.
      assert (T4 : forall report,
                 result_of (K3 report) ctx =
                 (s4 ← tech_section ctx; Returns (join newline (report ++ s4)))).
      { clear report. intros report. subst K3. cbv beta. unfold tech_section.
        section_steps I. all: by rewrite ?app_nil_r. }
      clearbody K3. unfold phase_section. section_steps T4. }
    clearbody K2. unfold ltv_cac_section. section_steps T3. }
  clearbody K1. unfold roi_section, report_title. section_steps T2.
Qed.

Lemma join_single sep x : join sep [x] = x.
Proof. reflexivity. Qed.

Lemma is_prefix_join sep x rest : is_prefix x (join sep (x :: rest)) = true.
Proof.
  apply is_prefix_spec. destruct rest as [|y rest].
  - exists EmptyString. cbn [join]. induction x as [|c x IH]; [reflexivity|].
    rewrite append_cons. by rewrite <- IH.
  - by exists (sep +:+ join sep (y :: rest)).
Qed.




(** X16: sections whose inputs are absent are left out: with no complete
    pair of figures, no phase and no technology list in the context the
    report is its title line. *)
Theorem report_without_inputs (rt : Runtime) (self : PrologValidator) (ctx : context) :
  ctx !! "revenue" = None \/ ctx !! "costs" = None ->
  ctx !! "ltv" = None \/ ctx !! "cac" = None ->
  ctx !! "current_phase" = None ->
  ctx !! "tech_stack" = None ->
  result_of (generate_validation_report rt self) ctx = Returns report_title.
Proof.
  intros Hroi Hltv Hphase Hstack. rewrite report_run.
  assert (roi_section rt self ctx = Returns []) as ->.
  { unfold roi_section. destruct Hroi as [->| ->]; [done|]. by destruct (ctx !! "revenue"). }
  assert (ltv_cac_section rt self ctx = Returns []) as ->.
  { unfold ltv_cac_section. destruct Hltv as [->| ->]; [done|]. by destruct (ctx !! "ltv"). }
  unfold phase_section, tech_section. by rewrite Hphase, Hstack.
Qed.

Lemma report_without_inputs_witness :
  result_of (generate_validation_report no_engine offline)
    {[ "revenue" := VNum (Int 5); "notes" := VStr "draft" ]} = Returns report_title.
Proof.
  apply report_without_inputs; by (left + right + idtac).
Defined.






(** X19: whenever the report is produced it opens with the title line. *)
Theorem report_opens_with_title (rt : Runtime) (self : PrologValidator)
    (ctx : context) (text : string) :
  result_of (generate_validation_report rt self) ctx = Returns text ->
  is_prefix report_title text = true.
Proof.
  rewrite report_run.
  destruct (roi_section rt self ctx) as [s1|]; [|discriminate].
  destruct (ltv_cac_section rt self ctx) as [s2|]; [|discriminate].
  destruct (phase_section rt self ctx) as [s3|]; [|discriminate].
  destruct (tech_section ctx) as [s4|]; [|discriminate].
  cbn [mbind outcome_bind]. intros [= <-]. apply is_prefix_join.
Qed.

Lemma report_opens_with_title_witness :
  is_prefix report_title report_title = true.
Proof.
  exact (report_opens_with_title no_engine offline ∅ report_title eq_refl).
Defined.
